(** * coinflipmarket: random in/out trading against buy and hold

    A shallow embedding of [progettofinanza.py] and the properties of its
    three stages: the return series built from closing prices, the
    vectorised simulation (decision matrix, simulated returns, equity
    curves, benchmark curve) and the analysis of the final values.

    Numbers.  The script computes in binary64.  Here a finite number is an
    exact rational ([Q], compared with [==]); rounding, overflow and
    underflow are not followed.  The non-finite values matter at one place
    only, the percentage change of the prices, and are kept there as
    [NaN] and [Inf] cells.  A run whose return series holds an infinity is
    reported as [NonFinite]: the script goes on with it in binary64, this
    development does not.  What is stated over the rationals is meant to
    hold of the binary64 run as well: identities that survive rounding and
    bounds that monotone rounding keeps.  Where rounding or underflow
    decides, the lines are embedded a second time, bit for bit, in
    [Binary64].

    Arrays.  A one-dimensional array is a list; a two-dimensional array of
    shape (T, N) is the list of its T rows.  An array that is within
    numpy's size limit is taken to fit in memory. *)

From Stdlib Require Import String Bool List ZArith QArith Lia Lqa.
From Stdlib Require Floats Uint63.
Import ListNotations.
Open Scope Q_scope.

(** ** Outcomes of a run *)

(** The exceptions the script can die of. *)
Inductive exn : Type :=
| IndexError
| ValueError.

(** How far a run gets: a value, an exception, or one of the two places
    where the script goes on and this development stops following it: a
    return that is not finite, and a frame in which several columns are
    labelled Close. *)
Inductive result (A : Type) : Type :=
| Ok (a : A)
| Raise (e : exn)
| NonFinite
| SeveralColumns.

Arguments Ok {A} a.
Arguments Raise {A} e.
Arguments NonFinite {A}.
Arguments SeveralColumns {A}.

Definition bind {A B : Type} (c : result A) (k : A -> result B) : result B :=
  match c with
  | Ok a => k a
  | Raise e => Raise e
  | NonFinite => NonFinite
  | SeveralColumns => SeveralColumns
  end.

Notation "x <- c ;; k" := (bind c (fun x => k))
  (at level 61, c at next level, right associativity).

(** ** Lists as arrays *)

Section Arrays.
Context {A B C : Type}.

(** Elementwise combination of two arrays of the same length. *)
Fixpoint zipWith (f : A -> B -> C) (xs : list A) (ys : list B) : list C :=
  match xs, ys with
  | x :: xs', y :: ys' => f x y :: zipWith f xs' ys'
  | _, _ => []
  end.

(** [m[t, n]], when the cell exists. *)
Definition get (m : list (list A)) (t n : nat) : option A :=
  match nth_error m t with
  | Some row => nth_error row n
  | None => None
  end.

(** [a[-1]]: the last element; [IndexError] on an array of size 0. *)
Fixpoint last_item (a : list A) : result A :=
  match a with
  | [] => Raise IndexError
  | [x] => Ok x
  | _ :: a' => last_item a'
  end.
End Arrays.

(** ** The pandas calls *)

Module Pandas.

(** A cell of a float column after arithmetic: a finite number, an
    infinity (of either sign) or NaN. *)
Inductive cell : Type :=
| Num (q : Q)
| Inf
| NaN.

(** A price is a finite number or missing (NaN in the frame). *)
Definition price := option Q.

(** A frame: its columns in order, each with its label. *)
Definition DataFrame := list (string * list price).

(** [label in data.columns] *)
Definition has_column (label : string) (data : DataFrame) : bool :=
  existsb (fun c => String.eqb (fst c) label) data.

(** [data[label]]: every column that carries the label, in order. With one
    such column this is a series, with several it is a frame again. *)
Fixpoint column (label : string) (data : DataFrame) : list (list price) :=
  match data with
  | [] => []
  | (l, v) :: data' =>
      if String.eqb l label then v :: column label data'
      else column label data'
  end.

(** [data.iloc[:, 0]]: the first column; [IndexError] when there is none. *)
Definition iloc_first (data : DataFrame) : result (list price) :=
  match data with
  | [] => Raise IndexError
  | (_, v) :: _ => Ok v
  end.

(** [fill_method] of [pct_change].  Called without arguments, pandas up to
    2.x pads missing values forward first; later versions do not fill. *)
Inductive fill_method : Type :=
| pad
| no_fill.

(** [s.ffill()]: a missing value takes the last value seen before it. *)
Fixpoint ffill_from (seen : price) (s : list price) : list price :=
  match s with
  | [] => []
  | Some p :: s' => Some p :: ffill_from (Some p) s'
  | None :: s' => seen :: ffill_from seen s'
  end.

Definition ffill (s : list price) : list price := ffill_from None s.

(** [s.shift(1)]: every value moves one row down, the first row is
    missing, the length is kept. *)
Definition shift (s : list price) : list price :=
  match s with
  | [] => []
  | _ :: _ => None :: removelast s
  end.

(** [x / y - 1] on two entries of a float column. *)
Definition change (x y : price) : cell :=
  match x, y with
  | Some c, Some p =>
      if Qeq_bool p 0
      then (if Qeq_bool c 0 then NaN else Inf)
      else Num (c / p - 1)
  | _, _ => NaN
  end.

(** The series [pct_change] divides: the prices, padded or not. *)
Definition filled (fm : fill_method) (s : list price) : list price :=
  match fm with pad => ffill s | no_fill => s end.

(** [s.pct_change()]: [data / data.shift(1) - 1]. *)
Definition pct_change (fm : fill_method) (s : list price) : list cell :=
  let data := filled fm s in
  zipWith change data (shift data).

(** [s.fillna(v)]: NaN cells become [v]. *)
Definition fillna (v : Q) (s : list cell) : list cell :=
  map (fun c => match c with NaN => Num v | _ => c end) s.

(** The finite numbers of a column handed to the numeric stages; an
    infinity leaves the model. *)
Fixpoint finite (s : list cell) : result (list Q) :=
  match s with
  | [] => Ok []
  | Num q :: s' => qs <- finite s' ;; Ok (q :: qs)
  | (Inf | NaN) :: _ => NonFinite
  end.

End Pandas.

(** ** The numpy calls *)

Module Numpy.

(** [1 + a] on a one-dimensional and on a two-dimensional array. *)
Definition one_plus (a : list Q) : list Q := map (Qplus 1) a.
Definition one_plus2 (m : list (list Q)) : list (list Q) := map one_plus m.

(** [r.reshape(-1, 1) * d] for [r] of shape (T,) and an integer array [d]
    of shape (T, N): row [t] of [d] is scaled by [r[t]]. *)
Definition broadcast_mul (r : list Q) (d : list (list Z)) : list (list Q) :=
  zipWith (fun rt row => map (fun x => rt * inject_Z x) row) r d.

(** [np.cumprod(a)]: the first element is kept, each later one is the
    previous output times the input. *)
Fixpoint cumprod_from (acc : Q) (a : list Q) : list Q :=
  match a with
  | [] => []
  | x :: a' => let y := acc * x in y :: cumprod_from y a'
  end.

Definition cumprod (a : list Q) : list Q :=
  match a with
  | [] => []
  | x :: a' => x :: cumprod_from x a'
  end.

(** [np.cumprod(m, axis=0)]: the same down every column, a row at a time. *)
Fixpoint cumprod_rows_from (acc : list Q) (m : list (list Q)) : list (list Q) :=
  match m with
  | [] => []
  | row :: m' =>
      let out := zipWith Qmult acc row in out :: cumprod_rows_from out m'
  end.

Definition cumprod_axis0 (m : list (list Q)) : list (list Q) :=
  match m with
  | [] => []
  | row :: m' => row :: cumprod_rows_from row m'
  end.

Definition sumQ (a : list Q) : Q := fold_left Qplus a 0.

(** [np.mean(a)]: NaN (and a warning, no exception) on an empty array. *)
Definition mean (a : list Q) : Pandas.cell :=
  match a with
  | [] => Pandas.NaN
  | _ :: _ => Pandas.Num (sumQ a / inject_Z (Z.of_nat (length a)))
  end.

Definition Qgt_bool (x y : Q) : bool := negb (Qle_bool x y).
Definition Qmax (x y : Q) : Q := if Qle_bool x y then y else x.
Definition Qmin (x y : Q) : Q := if Qle_bool x y then x else y.

(** [np.max(a)] and [np.min(a)]: [ValueError] on an empty array. *)
Definition max (a : list Q) : result Q :=
  match a with
  | [] => Raise ValueError
  | x :: a' => Ok (fold_left Qmax a' x)
  end.

Definition min (a : list Q) : result Q :=
  match a with
  | [] => Raise ValueError
  | x :: a' => Ok (fold_left Qmin a' x)
  end.

(** [np.sum(a > b)]: the comparison gives booleans, the sum counts them
    as 0 and 1. *)
Definition sum_gt (a : list Q) (b : Q) : Z :=
  fold_left Z.add (map (fun v => if Qgt_bool v b then 1%Z else 0%Z) a) 0%Z.

(** The state of the global generator, given by the uniform samples in
    [0, 1) that it hands out, in order. *)
Definition RandomState := nat -> Q.

Fixpoint cumsum_from (acc : Q) (p : list Q) : list Q :=
  match p with
  | [] => []
  | x :: p' => let y := acc + x in y :: cumsum_from y p'
  end.

Definition cumsum (p : list Q) : list Q := cumsum_from 0 p.

(** [cdf.searchsorted(u, side='right')]: how many entries are [<= u]. *)
Definition searchsorted_right (cdf : list Q) (u : Q) : nat :=
  length (filter (fun c => Qle_bool c u) cdf).

(** One draw of [np.random.choice(a, p=p)] from the uniform sample [u].
    An index past the end does not arise for a sample below 1 and
    probabilities that sum to 1. *)
Definition choice1 (a : list Z) (p : list Q) (u : Q) : Z :=
  nth (searchsorted_right (cumsum p) u) a (List.last a 0%Z).

(** The largest dimension and the largest size in bytes of an array: the
    largest C integer of the platform. *)
Definition max_dimension : Z := 2 ^ 63 - 1.

(** Whether an array of binary64 cells of shape (T, N) is within numpy's
    limit: the product of its dimensions that are not zero, in bytes. *)
Definition fits (T : nat) (N : Z) : bool :=
  (8 * Z.max 1 (Z.of_nat T) * N <=? max_dimension)%Z.

(** [np.random.choice(a, size=(T, N), p=p)]: T*N draws in row order;
    [ValueError] for a negative dimension and for a shape beyond the
    limit. *)
Definition random_choice (a : list Z) (T : nat) (N : Z) (p : list Q)
    (g : RandomState) : result (list (list Z)) :=
  if (N <? 0)%Z || negb (fits T N) then Raise ValueError
  else
    let n := Z.to_nat N in
    Ok (map (fun t => map (fun k => choice1 a p (g (t * n + k)%nat)) (seq 0 n))
            (seq 0 T)).

(** The state after [k] samples have been handed out. *)
Definition advance (g : RandomState) (k : nat) : RandomState :=
  fun i => g (k + i)%nat.


End Numpy.

(** ** The same arithmetic in binary64 *)

Module Binary64.
Import PrimFloat.

(** An integer array next to a float array: the integers become floats. *)
Definition of_int (x : Z) : float :=
  if (x <? 0)%Z then (- of_uint63 (Uint63.of_Z (- x)))%float
  else of_uint63 (Uint63.of_Z x).

Definition one_plus (a : list float) : list float :=
  map (fun x => (1 + x)%float) a.
Definition one_plus2 (m : list (list float)) : list (list float) :=
  map one_plus m.

Definition broadcast_mul (r : list float) (d : list (list Z))
    : list (list float) :=
  zipWith (fun rt row => map (fun x => (rt * of_int x)%float) row) r d.

Fixpoint cumprod_from (acc : float) (a : list float) : list float :=
  match a with
  | [] => []
  | x :: a' => let y := (acc * x)%float in y :: cumprod_from y a'
  end.

Definition cumprod (a : list float) : list float :=
  match a with
  | [] => []
  | x :: a' => x :: cumprod_from x a'
  end.

Fixpoint cumprod_rows_from (acc : list float) (m : list (list float))
    : list (list float) :=
  match m with
  | [] => []
  | row :: m' =>
      let out := zipWith mul acc row in out :: cumprod_rows_from out m'
  end.

Definition cumprod_axis0 (m : list (list float)) : list (list float) :=
  match m with
  | [] => []
  | row :: m' => row :: cumprod_rows_from row m'
  end.

(** A price series without missing values, where padding changes nothing:
    [s.shift(1)], [s.pct_change()] and [s.fillna(v)]. *)
Definition shift (s : list float) : list float :=
  match s with
  | [] => []
  | _ :: _ => nan :: removelast s
  end.

Definition pct_change (s : list float) : list float :=
  zipWith (fun x y => (x / y - 1)%float) s (shift s).

Definition fillna (v : float) (s : list float) : list float :=
  map (fun c => if is_nan c then v else c) s.

(** Lines 30, 49, 53 and 56. *)
Definition market_returns (prices : list float) : list float :=
  fillna 0%float (pct_change prices).

Definition simulated_daily_returns (market_returns : list float)
    (decision_matrix : list (list Z)) : list (list float) :=
  broadcast_mul market_returns decision_matrix.

Definition equity_curves (simulated_daily_returns : list (list float))
    : list (list float) :=
  cumprod_axis0 (one_plus2 simulated_daily_returns).

Definition benchmark_curve (market_returns : list float) : list float :=
  cumprod (one_plus market_returns).

(** Prices that fall by the factor 2^-53 from one day to the next. *)
Fixpoint falling_prices (p : float) (days : nat) : list float :=
  match days with
  | O => []
  | S days' => p :: falling_prices (p * 0x1p-53)%float days'
  end.

End Binary64.

(** ** The script *)

Import Pandas.

(** Lines 22-26: the closing prices, or the first column when no column is
    labelled Close. *)
Definition prices (data : DataFrame) : result (list price) :=
  if has_column "Close"%string data then
    match column "Close"%string data with
    | [v] => Ok v
    | _ => SeveralColumns
    end
  else iloc_first data.

(** Line 30: [prices.pct_change().fillna(0)]. *)
Definition market_returns (fm : fill_method) (prices : list price) : list cell :=
  fillna 0 (pct_change fm prices).

(** Line 44. *)
Definition decision_matrix (T : nat) (NUM_SIMULATIONS : Z)
    (g : Numpy.RandomState) : result (list (list Z)) :=
  Numpy.random_choice [0; 1]%Z T NUM_SIMULATIONS [1 # 2; 1 # 2] g.

(** Line 44 as a step of the global generator: the matrix drawn, and the
    state the generator is left in. *)
Definition draw (T : nat) (NUM_SIMULATIONS : Z) (g : Numpy.RandomState)
    : result (list (list Z)) * Numpy.RandomState :=
  (decision_matrix T NUM_SIMULATIONS g,
   Numpy.advance g (T * Z.to_nat NUM_SIMULATIONS)).

(** Line 49. *)
Definition simulated_daily_returns (market_returns : list Q)
    (decision_matrix : list (list Z)) : list (list Q) :=
  Numpy.broadcast_mul market_returns decision_matrix.

(** Line 53. *)
Definition equity_curves (simulated_daily_returns : list (list Q))
    : list (list Q) :=
  Numpy.cumprod_axis0 (Numpy.one_plus2 simulated_daily_returns).

(** Line 56. *)
Definition benchmark_curve (market_returns : list Q) : list Q :=
  Numpy.cumprod (Numpy.one_plus market_returns).

(** Line 61: [equity_curves[-1, :]]. *)
Definition final_values (equity_curves : list (list Q)) : result (list Q) :=
  last_item equity_curves.

(** Line 62: [benchmark_curve[-1]]. *)
Definition benchmark_final (benchmark_curve : list Q) : result Q :=
  last_item benchmark_curve.

(** Line 74. *)
Definition beat_benchmark (final_values : list Q) (benchmark_final : Q) : Z :=
  Numpy.sum_gt final_values benchmark_final.

(** Line 75. *)
Definition prob_success (beat_benchmark NUM_SIMULATIONS : Z) : Q :=
  inject_Z beat_benchmark / inject_Z NUM_SIMULATIONS * 100.

(** What the simulation stage (lines 38-56) leaves behind. *)
Record simulation : Type := {
  sim_decisions : list (list Z);
  sim_returns : list (list Q);
  sim_equity : list (list Q);
  sim_benchmark : list Q
}.

Definition simulation_of (r : list Q) (d : list (list Z)) : simulation :=
  {| sim_decisions := d;
     sim_returns := simulated_daily_returns r d;
     sim_equity := equity_curves (simulated_daily_returns r d);
     sim_benchmark := benchmark_curve r |}.

Definition simulate (market_returns : list Q) (NUM_SIMULATIONS : Z)
    (g : Numpy.RandomState) : result simulation :=
  d <- decision_matrix (length market_returns) NUM_SIMULATIONS g ;;
  Ok (simulation_of market_returns d).

(** The figures the analysis stage (lines 61-78) prints. *)
Record report : Type := {
  buy_hold_return : Q;
  average_return : cell;
  best_run : Q;
  worst_run : Q;
  beaten : Z;
  probability : Q
}.

Definition percent (multiplier : Q) : Q := (multiplier - 1) * 100.

Definition analyse (s : simulation) (NUM_SIMULATIONS : Z) : result report :=
  fv <- final_values (sim_equity s) ;;
  bf <- benchmark_final (sim_benchmark s) ;;
  let avg := match Numpy.mean fv with Num m => Num (percent m) | c => c end in
  best <- Numpy.max fv ;;
  worst <- Numpy.min fv ;;
  let beat := beat_benchmark fv bf in
  Ok {| buy_hold_return := percent bf;
        average_return := avg;
        best_run := percent best;
        worst_run := percent worst;
        beaten := beat;
        probability := prob_success beat NUM_SIMULATIONS |}.

(** Lines 22-30: the return series handed to the simulation. *)
Definition load (fm : fill_method) (data : DataFrame) : result (list Q) :=
  p <- prices data ;;
  finite (market_returns fm p).

(** The whole run, from the downloaded frame to the printed figures. *)
Definition run (fm : fill_method) (data : DataFrame) (NUM_SIMULATIONS : Z)
    (g : Numpy.RandomState) : result report :=
  r <- load fm data ;;
  s <- simulate r NUM_SIMULATIONS g ;;
  analyse s NUM_SIMULATIONS.

(** Line 96: [equity_curves[:, :100]], the paths drawn in the second
    panel. *)
Definition plotted_paths (equity_curves : list (list Q)) : list (list Q) :=
  map (firstn 100) equity_curves.

(** A small run used for the concrete checks below: four days, two
    simulated strategies. *)
Definition example_returns : list Q := [0; 1 # 10; - (1 # 10); 5 # 100].
Definition example_decisions : list (list Z) :=
  [[1; 0]; [1; 1]; [0; 1]; [1; 0]]%Z.

(** ** Shapes *)

(** [m] has T rows of N cells each. *)
Definition shape {A : Type} (m : list (list A)) (T N : nat) : Prop :=
  length m = T /\ Forall (fun row => length row = N) m.

(** Every decision is 0 or 1. *)
Definition binary (d : list (list Z)) : Prop :=
  Forall (Forall (fun x => x = 0%Z \/ x = 1%Z)) d.

(** ** Notions used in the statements *)

(** The product of two optional cells: defined when both are. *)
Definition omul (a b : option Q) : option Q :=
  match a, b with
  | Some y, Some x => Some (y * x)
  | _, _ => None
  end.

(** What [fillna(0)] does to one cell. *)
Definition fill0 (c : cell) : cell :=
  match c with NaN => Num 0 | _ => c end.

(** The growth factor of strategy [n] on day [t]. *)
Definition factor (r : list Q) (d : list (list Z)) (t n : nat) : option Q :=
  match nth_error r t, get d t n with
  | Some rt, Some x => Some (1 + rt * inject_Z x)
  | _, _ => None
  end.

(** A price that is there is positive. *)
Definition positive_price (p : price) : Prop :=
  match p with Some q => 0 < q | None => True end.

(** A finite return above -1. *)
Definition above_minus_one (c : cell) : Prop :=
  match c with Num q => -1 < q | _ => False end.

(** The count in the words of the specification: the final values that are
    strictly greater than the benchmark's final value. *)
Definition strictly_above (bf : Q) (fv : list Q) : list Q :=
  filter (fun v => if Qlt_le_dec bf v then true else false) fv.

(** The quote source returned no rows: every column is empty. *)
Definition zero_rows (data : DataFrame) : Prop :=
  Forall (fun c => snd c = []) data.

(** The run stops before the simulation: loading the returns raises. *)
Definition fails_before_simulation (fm : fill_method) (data : DataFrame) : Prop :=
  exists e, load fm data = Raise e.

(** The simulation of an empty return series: arrays without rows. *)
Definition empty_simulation : simulation :=
  {| sim_decisions := []; sim_returns := []; sim_equity := [];
     sim_benchmark := [] |}.

(** The decision that a uniform sample gives: invested from one half on. *)
Definition coin (u : Q) : Z := if Qle_bool (1 # 2) u then 1%Z else 0%Z.

(** The generator hands out samples below 1. *)
Definition unit_samples (g : Numpy.RandomState) : Prop := forall k, g k < 1.

(** The last price known on day [t]: the price of the latest day up to
    [t] that has one. *)
Fixpoint last_known (ps : list price) (t : nat) : price :=
  match nth_error ps t with
  | Some (Some p) => Some p
  | _ => match t with
         | O => None
         | S t' => last_known ps t'
         end
  end.

(** A return that is finite is at least -1, and none is undefined. *)
Definition at_least_minus_one (c : cell) : Prop :=
  match c with Num q => -1 <= q | Inf => True | NaN => False end.

(** * Properties *)

(** Settles [binary], [shape] and [Forall] side conditions on literal arrays. *)
Ltac literal :=
  repeat first
    [ apply Forall_nil | apply Forall_cons | split
    | reflexivity | (left; reflexivity) | (right; reflexivity)
    | discriminate ].

(** ** Indexing *)

Lemma nth_error_zipWith {A B C : Type} (f : A -> B -> C) xs ys n :
  nth_error (zipWith f xs ys) n =
  match nth_error xs n, nth_error ys n with
  | Some x, Some y => Some (f x y)
  | _, _ => None
  end.
Proof.
  revert ys n; induction xs as [|x xs IH]; intros [|y ys] [|n]; simpl; auto.
  destruct (nth_error xs n); reflexivity.
Qed.

Lemma length_zipWith {A B C : Type} (f : A -> B -> C) xs ys :
  length (zipWith f xs ys) = Nat.min (length xs) (length ys).
Proof.
  revert ys; induction xs as [|x xs IH]; intros [|y ys]; simpl; auto.
Qed.

Lemma get_shape {A : Type} {m : list (list A)} {T N t n} :
  shape m T N -> (t < T)%nat -> (n < N)%nat -> exists x, get m t n = Some x.
Proof.
  intros [HT HN] Ht Hn. unfold get.
  destruct (nth_error m t) as [row|] eqn:E.
  - rewrite Forall_forall in HN.
    pose proof (HN row (nth_error_In _ _ E)) as Hrow.
    destruct (nth_error row n) as [x|] eqn:E'; [eauto|].
    apply nth_error_None in E'. lia.
  - apply nth_error_None in E. lia.
Qed.

Lemma get_binary {d t n x} :
  binary d -> get d t n = Some x -> x = 0%Z \/ x = 1%Z.
Proof.
  unfold binary, get. intros Hb Hg.
  destruct (nth_error d t) as [row|] eqn:E; [|discriminate].
  rewrite Forall_forall in Hb.
  pose proof (Hb row (nth_error_In _ _ E)) as Hrow.
  rewrite Forall_forall in Hrow. exact (Hrow x (nth_error_In _ _ Hg)).
Qed.

Lemma nth_error_lt {A : Type} (a : list A) {t} :
  (t < length a)%nat -> exists x, nth_error a t = Some x.
Proof.
  intros Ht. destruct (nth_error a t) as [x|] eqn:E; [eauto|].
  apply nth_error_None in E. lia.
Qed.

(** ** The return series *)

Lemma length_ffill_from seen s : length (ffill_from seen s) = length s.
Proof.
  revert seen; induction s as [|[p|] s IH]; intros seen; simpl; auto.
Qed.

Lemma length_removelast_cons {A : Type} (x : A) (s : list A) :
  length (removelast (x :: s)) = length s.
Proof.
  revert x; induction s as [|y s IH]; intros x; [reflexivity|].
  change (S (length (removelast (y :: s))) = S (length s)). now rewrite IH.
Qed.

Lemma length_shift s : length (shift s) = length s.
Proof.
  destruct s as [|x s]; [reflexivity|].
  unfold shift. cbn [length]. now rewrite length_removelast_cons.
Qed.

Lemma nth_error_removelast {A : Type} (s : list A) t :
  (S t < length s)%nat -> nth_error (removelast s) t = nth_error s t.
Proof.
  revert t; induction s as [|x s IH]; intros t Ht; simpl in Ht; [lia|].
  destruct s as [|y s]; [simpl in Ht; lia|].
  destruct t as [|t]; [reflexivity|].
  change (nth_error (removelast (y :: s)) t = nth_error (y :: s) t).
  apply IH. simpl in *. lia.
Qed.

(** [s.shift(1)[0]] is missing and [s.shift(1)[t+1] = s[t]]. *)
Lemma shift_0 s : s <> [] -> nth_error (shift s) 0 = Some None.
Proof. destruct s; [congruence|reflexivity]. Qed.

Lemma shift_S s t :
  (S t < length s)%nat -> nth_error (shift s) (S t) = nth_error s t.
Proof.
  intros Ht. destruct s as [|x s]; [simpl in Ht; lia|].
  unfold shift. cbn [nth_error]. now apply nth_error_removelast.
Qed.

(** Padding keeps the prices that are there ... *)
Lemma ffill_from_present seen s t p :
  nth_error s t = Some (Some p) ->
  nth_error (ffill_from seen s) t = Some (Some p).
Proof.
  revert seen t; induction s as [|x s IH]; intros seen [|t] H;
    simpl in H; try discriminate.
  - injection H as ->. reflexivity.
  - destruct x; simpl; now apply IH.
Qed.

(** ... and repeats the entry before a missing one. *)
Lemma ffill_from_missing_0 seen s :
  nth_error s 0 = Some None -> nth_error (ffill_from seen s) 0 = Some seen.
Proof. destruct s as [|[p|] s]; simpl; intros H; congruence. Qed.

Lemma ffill_from_missing_S seen s t :
  nth_error s (S t) = Some None ->
  nth_error (ffill_from seen s) (S t) = nth_error (ffill_from seen s) t.
Proof.
  revert seen t; induction s as [|x s IH]; intros seen t H; [discriminate|].
  simpl in H.
  assert (E : exists v, ffill_from seen (x :: s) = v :: ffill_from v s).
  { destruct x; simpl; eauto. }
  destruct E as [v ->]. cbn [nth_error].
  destruct t as [|t].
  - now apply ffill_from_missing_0.
  - now apply IH.
Qed.

Lemma length_filled fm s : length (filled fm s) = length s.
Proof. destruct fm; [apply length_ffill_from|reflexivity]. Qed.

Lemma filled_present fm s t p :
  nth_error s t = Some (Some p) -> nth_error (filled fm s) t = Some (Some p).
Proof. destruct fm; [apply ffill_from_present|auto]. Qed.

Lemma length_pct_change fm s : length (pct_change fm s) = length s.
Proof.
  unfold pct_change.
  rewrite length_zipWith, length_shift, Nat.min_id. apply length_filled.
Qed.

Lemma length_market_returns fm s : length (market_returns fm s) = length s.
Proof.
  unfold market_returns, fillna. rewrite length_map. apply length_pct_change.
Qed.

Lemma pct_change_0 fm s : s <> [] -> nth_error (pct_change fm s) 0 = Some NaN.
Proof.
  intros Hs. unfold pct_change.
  assert (Hf : filled fm s <> []).
  { intros E. apply Hs. apply length_zero_iff_nil.
    rewrite <- (length_filled fm), E. reflexivity. }
  rewrite nth_error_zipWith, (shift_0 _ Hf).
  destruct (filled fm s) as [|[c|] f]; [congruence| |]; reflexivity.
Qed.

Lemma pct_change_S fm s t x y :
  nth_error (filled fm s) (S t) = Some x ->
  nth_error (filled fm s) t = Some y ->
  nth_error (pct_change fm s) (S t) = Some (change x y).
Proof.
  intros Hx Hy. unfold pct_change.
  rewrite nth_error_zipWith, shift_S, Hx, Hy; [reflexivity|].
  apply nth_error_Some. rewrite Hx. discriminate.
Qed.

Lemma nth_error_market_returns fm s t :
  nth_error (market_returns fm s) t =
  option_map fill0 (nth_error (pct_change fm s) t).
Proof. apply nth_error_map. Qed.

(** A price against itself is a flat day. *)
Lemma change_same v : exists q, fill0 (change v v) = Num q /\ q == 0.
Proof.
  destruct v as [p|]; simpl; [|exists 0; split; reflexivity].
  destruct (Qeq_bool p 0) eqn:E; simpl.
  - exists 0; split; reflexivity.
  - exists (p / p - 1). split; [reflexivity|].
    apply Qeq_bool_neq in E. field. exact E.
Qed.

(** Without filling, the change on the day after a missing price is
    undefined as well and becomes 0. *)
Lemma market_returns_after_missing_no_fill (ps : list price) (t : nat) :
  nth_error ps t = Some None -> (S t < length ps)%nat ->
  nth_error (market_returns no_fill ps) (S t) = Some (Num 0).
Proof.
  intros Ht Hlt. destruct (nth_error_lt ps Hlt) as [x Hx].
  rewrite nth_error_market_returns.
  rewrite (pct_change_S no_fill ps t _ _ Hx Ht). destruct x; reflexivity.
Qed.

(** Padding hands every day the last price known. *)
Lemma ffill_last_known ps t :
  (t < length ps)%nat -> nth_error (ffill ps) t = Some (last_known ps t).
Proof.
  induction t as [|t IH]; intros Ht.
  - destruct (nth_error_lt ps Ht) as [[p|] Hp].
    + replace (last_known ps 0) with (Some p)
        by (unfold last_known; now rewrite Hp).
      now apply ffill_from_present.
    + replace (last_known ps 0) with (@None Q)
        by (unfold last_known; now rewrite Hp).
      now apply ffill_from_missing_0.
  - destruct (nth_error_lt ps Ht) as [[p|] Hp].
    + replace (last_known ps (S t)) with (Some p)
        by (cbn [last_known]; now rewrite Hp).
      now apply ffill_from_present.
    + replace (last_known ps (S t)) with (last_known ps t)
        by (cbn [last_known]; now rewrite Hp).
      unfold ffill. rewrite (ffill_from_missing_S None ps t Hp).
      apply IH. lia.
Qed.

(** With padding, the change on a day that has a price is taken from the
    last price known before it, across any gap; with none known it is
    undefined and becomes 0. *)
Lemma market_returns_after_gap_pad (ps : list price) (t : nat) (c : Q) :
  nth_error ps (S t) = Some (Some c) ->
  match last_known ps t with
  | Some p =>
      ~ p == 0 ->
      nth_error (market_returns pad ps) (S t) = Some (Num (c / p - 1))
  | None => nth_error (market_returns pad ps) (S t) = Some (Num 0)
  end.
Proof.
  intros Hc.
  assert (Ht : (t < length ps)%nat).
  { assert (S t < length ps)%nat; [|lia].
    apply nth_error_Some. rewrite Hc. discriminate. }
  pose proof (pct_change_S pad ps t _ _ (filled_present pad _ _ _ Hc)
                (ffill_last_known ps t Ht)) as E.
  destruct (last_known ps t) as [p|].
  - intros Hp0. rewrite nth_error_market_returns, E. simpl.
    destruct (Qeq_bool p 0) eqn:B; [|reflexivity].
    apply Qeq_bool_eq in B. contradiction.
  - now rewrite nth_error_market_returns, E.
Qed.

(** C3, as the script behaves. For a price series of length at least 2 the
    return series has the same length, starts with 0, holds
    [price[t] / price[t-1] - 1] at every later index whose two prices are
    there (the earlier one not zero), and holds 0 wherever the percentage
    change is undefined, so that a day whose price is missing is a flat
    day. The day after a missing price is 0 only when [pct_change] does
    not pad; when it pads, the change of that day is taken from the last
    price known before the gap. *)
Theorem market_returns_spec (fm : fill_method) (ps : list price) :
  (2 <= length ps)%nat ->
  length (market_returns fm ps) = length ps /\
  nth_error (market_returns fm ps) 0 = Some (Num 0) /\
  (forall t c p,
     nth_error ps (S t) = Some (Some c) -> nth_error ps t = Some (Some p) ->
     ~ p == 0 ->
     nth_error (market_returns fm ps) (S t) = Some (Num (c / p - 1))) /\
  (forall t,
     nth_error (pct_change fm ps) t = Some NaN ->
     nth_error (market_returns fm ps) t = Some (Num 0)) /\
  (forall t,
     nth_error ps t = Some None ->
     exists q, nth_error (market_returns fm ps) t = Some (Num q) /\ q == 0) /\
  (fm = no_fill ->
   forall t,
     nth_error ps t = Some None -> (S t < length ps)%nat ->
     nth_error (market_returns fm ps) (S t) = Some (Num 0)) /\
  (fm = pad ->
   forall t c,
     nth_error ps (S t) = Some (Some c) ->
     match last_known ps t with
     | Some p =>
         ~ p == 0 ->
         nth_error (market_returns fm ps) (S t) = Some (Num (c / p - 1))
     | None => nth_error (market_returns fm ps) (S t) = Some (Num 0)
     end) /\
  (forall t, nth_error (market_returns fm ps) t <> Some NaN).
Proof.
  intros Hlen.
  assert (Hne : ps <> []) by (destruct ps; [simpl in Hlen; lia|discriminate]).
  split; [apply length_market_returns|].
  split; [rewrite nth_error_market_returns, (pct_change_0 fm _ Hne); reflexivity|].
  split; [|split; [|split; [|split; [|split]]]].
  - intros t c p Hc Hp Hp0.
    rewrite nth_error_market_returns.
    rewrite (pct_change_S fm ps t _ _ (filled_present fm _ _ _ Hc)
               (filled_present fm _ _ _ Hp)).
    simpl. destruct (Qeq_bool p 0) eqn:E; [|reflexivity].
    apply Qeq_bool_eq in E. contradiction.
  - intros t H. rewrite nth_error_market_returns, H. reflexivity.
  - intros [|t] Ht.
    + exists 0. rewrite nth_error_market_returns, (pct_change_0 fm _ Hne).
      split; reflexivity.
    + assert (Hlt : (S t < length (filled fm ps))%nat).
      { rewrite length_filled. apply nth_error_Some. rewrite Ht. discriminate. }
      destruct (nth_error_lt (filled fm ps) (t := t)) as [y Hy]; [lia|].
      destruct (nth_error_lt (filled fm ps) Hlt) as [x Hx].
      rewrite nth_error_market_returns, (pct_change_S fm ps t _ _ Hx Hy).
      destruct fm.
      * unfold filled, ffill in Hx, Hy.
        rewrite (ffill_from_missing_S None ps t Ht), Hy in Hx.
        injection Hx as <-.
        destruct (change_same y) as (q & Hq & Hq0).
        exists q. simpl. rewrite Hq. auto.
      * unfold filled in Hx. rewrite Ht in Hx. injection Hx as <-.
        exists 0. split; reflexivity.
  - intros -> t Ht Hlt. now apply market_returns_after_missing_no_fill.
  - intros -> t c Hc. now apply market_returns_after_gap_pad.
  - intros t H. rewrite nth_error_market_returns in H.
    destruct (nth_error (pct_change fm ps) t) as [[q| |]|]; discriminate.
Qed.

Lemma market_returns_spec_example :
  length (market_returns pad [Some 100; None; Some 150; Some 120]) = 4%nat /\
  nth_error (market_returns pad [Some 100; None; Some 150; Some 120]) 0
    = Some (Num 0) /\
  (exists q,
    nth_error (market_returns pad [Some 100; None; Some 150; Some 120]) 1
      = Some (Num q) /\ q == 0) /\
  nth_error (market_returns pad [Some 100; None; Some 150; Some 120]) 2
    = Some (Num (150 / 100 - 1)) /\
  nth_error (market_returns pad [Some 100; None; Some 150; Some 120]) 3
    = Some (Num (120 / 150 - 1)).
Proof.
  destruct (market_returns_spec pad [Some 100; None; Some 150; Some 120])
    as (H1 & H2 & H3 & _ & H5 & _ & H7 & _); [simpl; lia|].
  split; [exact H1|]. split; [exact H2|]. split; [|split].
  - apply (H5 1%nat). reflexivity.
  - apply (H7 eq_refl 1%nat 150); [reflexivity|discriminate].
  - apply (H3 2%nat 120 150); [reflexivity|reflexivity|discriminate].
Defined.

(** C3 as claimed fails: with padding, the return of the day after a
    missing price is not replaced by 0. *)
Lemma day_after_gap_not_flat :
  market_returns pad [Some 100; None; Some 150]
  = [Num 0; Num (100 / 100 - 1); Num (150 / 100 - 1)] /\
  ~ 150 / 100 - 1 == 0 /\
  ~ (forall fm ps t,
       nth_error ps t = Some None -> (S t < length ps)%nat ->
       exists q, nth_error (market_returns fm ps) (S t) = Some (Num q) /\
                 q == 0).
Proof.
  split; [reflexivity|]. split; [discriminate|].
  intros H.
  destruct (H pad [Some 100; None; Some 150] 1%nat) as (q & Hq & Hq0);
    [reflexivity|simpl; lia|].
  injection Hq as <-. discriminate Hq0.
Qed.

(** ** The running product, one step at a time *)

Lemma cumprod_from_0 acc a :
  nth_error (Numpy.cumprod_from acc a) 0 = omul (Some acc) (nth_error a 0).
Proof. destruct a; reflexivity. Qed.

Lemma cumprod_from_S acc a t :
  nth_error (Numpy.cumprod_from acc a) (S t) =
  omul (nth_error (Numpy.cumprod_from acc a) t) (nth_error a (S t)).
Proof.
  revert acc t; induction a as [|x a IH]; intros acc t.
  - simpl. destruct t; reflexivity.
  - destruct t as [|t].
    + simpl. apply cumprod_from_0.
    + change (nth_error (Numpy.cumprod_from (acc * x) a) (S t) =
              omul (nth_error (Numpy.cumprod_from (acc * x) a) t)
                   (nth_error a (S t))).
      apply IH.
Qed.

(** [np.cumprod]: [out[0] = a[0]] and [out[t+1] = out[t] * a[t+1]]. *)
Lemma cumprod_0 a : nth_error (Numpy.cumprod a) 0 = nth_error a 0.
Proof. destruct a; reflexivity. Qed.

Lemma cumprod_S a t :
  nth_error (Numpy.cumprod a) (S t) =
  omul (nth_error (Numpy.cumprod a) t) (nth_error a (S t)).
Proof.
  destruct a as [|x a]; [destruct t; reflexivity|].
  destruct t as [|t]; simpl.
  - apply cumprod_from_0.
  - apply cumprod_from_S.
Qed.

Lemma cumprod_rows_from_0 acc m n :
  get (Numpy.cumprod_rows_from acc m) 0 n = omul (nth_error acc n) (get m 0 n).
Proof.
  destruct m as [|row m]; unfold get; simpl.
  - destruct (nth_error acc n); reflexivity.
  - apply nth_error_zipWith.
Qed.

Lemma cumprod_rows_from_S acc m t n :
  get (Numpy.cumprod_rows_from acc m) (S t) n =
  omul (get (Numpy.cumprod_rows_from acc m) t n) (get m (S t) n).
Proof.
  revert acc t; induction m as [|row m IH]; intros acc t.
  - unfold get; simpl. destruct t; reflexivity.
  - destruct t as [|t].
    + change (get (Numpy.cumprod_rows_from (zipWith Qmult acc row) m) 0 n =
              omul (nth_error (zipWith Qmult acc row) n) (get m 0 n)).
      apply cumprod_rows_from_0.
    + change (get (Numpy.cumprod_rows_from (zipWith Qmult acc row) m) (S t) n =
              omul (get (Numpy.cumprod_rows_from (zipWith Qmult acc row) m) t n)
                   (get m (S t) n)).
      apply IH.
Qed.

(** [np.cumprod(axis=0)]: the same recurrence in every column. *)
Lemma cumprod_axis0_0 m n : get (Numpy.cumprod_axis0 m) 0 n = get m 0 n.
Proof. destruct m; reflexivity. Qed.

Lemma cumprod_axis0_S m t n :
  get (Numpy.cumprod_axis0 m) (S t) n =
  omul (get (Numpy.cumprod_axis0 m) t n) (get m (S t) n).
Proof.
  destruct m as [|row m]; [unfold get; destruct t; reflexivity|].
  destruct t as [|t].
  - change (get (Numpy.cumprod_rows_from row m) 0 n =
            omul (nth_error row n) (get m 0 n)).
    apply cumprod_rows_from_0.
  - change (get (Numpy.cumprod_rows_from row m) (S t) n =
            omul (get (Numpy.cumprod_rows_from row m) t n) (get m (S t) n)).
    apply cumprod_rows_from_S.
Qed.

(** ** Cells of the script's arrays *)

Lemma get_map {A B : Type} (f : A -> B) (m : list (list A)) t n :
  get (map (map f) m) t n = option_map f (get m t n).
Proof.
  unfold get. rewrite nth_error_map.
  destruct (nth_error m t) as [row|]; simpl; [apply nth_error_map|reflexivity].
Qed.

Lemma get_simulated r d t n :
  get (simulated_daily_returns r d) t n =
  match nth_error r t, get d t n with
  | Some rt, Some x => Some (rt * inject_Z x)
  | _, _ => None
  end.
Proof.
  unfold simulated_daily_returns, Numpy.broadcast_mul, get.
  rewrite nth_error_zipWith.
  destruct (nth_error r t) as [rt|]; [|reflexivity].
  destruct (nth_error d t) as [row|]; [|reflexivity].
  rewrite nth_error_map. destruct (nth_error row n); reflexivity.
Qed.

Lemma get_factor r d t n :
  get (Numpy.one_plus2 (simulated_daily_returns r d)) t n = factor r d t n.
Proof.
  unfold Numpy.one_plus2, Numpy.one_plus, factor.
  rewrite get_map, get_simulated.
  destruct (nth_error r t); [|reflexivity]. destruct (get d t n); reflexivity.
Qed.

Lemma equity_0 r d n :
  get (equity_curves (simulated_daily_returns r d)) 0 n = factor r d 0 n.
Proof. unfold equity_curves. rewrite cumprod_axis0_0. apply get_factor. Qed.

Lemma equity_S r d t n :
  get (equity_curves (simulated_daily_returns r d)) (S t) n =
  omul (get (equity_curves (simulated_daily_returns r d)) t n)
       (factor r d (S t) n).
Proof. unfold equity_curves. rewrite cumprod_axis0_S, get_factor. reflexivity. Qed.

Lemma benchmark_0 r :
  nth_error (benchmark_curve r) 0 = option_map (Qplus 1) (nth_error r 0).
Proof.
  unfold benchmark_curve, Numpy.one_plus. rewrite cumprod_0. apply nth_error_map.
Qed.

Lemma benchmark_S r t :
  nth_error (benchmark_curve r) (S t) =
  omul (nth_error (benchmark_curve r) t) (option_map (Qplus 1) (nth_error r (S t))).
Proof.
  unfold benchmark_curve, Numpy.one_plus. rewrite cumprod_S, nth_error_map.
  reflexivity.
Qed.

(** ** Induction down one column, next to the benchmark *)

Section Column.
Variables (r : list Q) (d : list (list Z)) (n : nat).
Variable P : Q -> Q -> Prop.

(** Column [n] of the decisions exists on every day of the series. *)
Hypothesis column_n : forall t, (t < length r)%nat -> exists x, get d t n = Some x.

Hypothesis first_day : forall r0 x,
  nth_error r 0 = Some r0 -> get d 0 n = Some x ->
  P (1 + r0 * inject_Z x) (1 + r0).

Hypothesis next_day : forall t e b rt x,
  P e b -> nth_error r (S t) = Some rt -> get d (S t) n = Some x ->
  P (e * (1 + rt * inject_Z x)) (b * (1 + rt)).

Lemma column_induction t :
  (t < length r)%nat ->
  exists e b,
    get (equity_curves (simulated_daily_returns r d)) t n = Some e /\
    nth_error (benchmark_curve r) t = Some b /\
    P e b.
Proof.
  induction t as [|t IH]; intros Ht.
  - destruct (nth_error_lt r Ht) as [r0 Hr], (column_n _ Ht) as [x Hx].
    exists (1 + r0 * inject_Z x), (1 + r0).
    rewrite equity_0, benchmark_0. unfold factor. rewrite Hr, Hx.
    split; [reflexivity|]. split; [reflexivity|]. now apply first_day.
  - destruct IH as (e & b & He & Hb & HP); [lia|].
    destruct (nth_error_lt r Ht) as [rt Hr], (column_n _ Ht) as [x Hx].
    exists (e * (1 + rt * inject_Z x)), (b * (1 + rt)).
    rewrite equity_S, benchmark_S, He, Hb. unfold factor. rewrite Hr, Hx.
    split; [reflexivity|]. split; [reflexivity|]. now apply (next_day t).
Qed.
End Column.

Section Benchmark.
Variable r : list Q.
Variable P : Q -> Prop.

Hypothesis first_day : forall r0, nth_error r 0 = Some r0 -> P (1 + r0).
Hypothesis next_day : forall t b rt,
  P b -> nth_error r (S t) = Some rt -> P (b * (1 + rt)).

Lemma benchmark_induction t :
  (t < length r)%nat ->
  exists b, nth_error (benchmark_curve r) t = Some b /\ P b.
Proof.
  induction t as [|t IH]; intros Ht.
  - destruct (nth_error_lt r Ht) as [r0 Hr].
    exists (1 + r0). rewrite benchmark_0, Hr. split; [reflexivity|auto].
  - destruct IH as (b & Hb & HP); [lia|].
    destruct (nth_error_lt r Ht) as [rt Hr].
    exists (b * (1 + rt)). rewrite benchmark_S, Hb, Hr.
    split; [reflexivity|]. now apply (next_day t).
Qed.
End Benchmark.

Lemma Forall_nth_error {A : Type} {Q0 : A -> Prop} {a : list A} {t x} :
  Forall Q0 a -> nth_error a t = Some x -> Q0 x.
Proof.
  intros H E. rewrite Forall_forall in H. exact (H x (nth_error_In _ _ E)).
Qed.

(** ** The simulated returns *)

(** C1. For a return series [r] of length T and a decision matrix [d] of
    shape T x N with entries 0 or 1, every cell (t, n) of the simulated
    return matrix is [r[t] * d[t, n]]: it is 0 where the decision is 0 and
    [r[t]] where the decision is 1. *)
Theorem simulated_returns_cell (r : list Q) (d : list (list Z)) (T N t n : nat) :
  length r = T -> shape d T N -> binary d -> (t < T)%nat -> (n < N)%nat ->
  exists rt x v,
    nth_error r t = Some rt /\
    get d t n = Some x /\
    get (simulated_daily_returns r d) t n = Some v /\
    v = rt * inject_Z x /\
    ((x = 0%Z /\ v == 0) \/ (x = 1%Z /\ v == rt)).
Proof.
  intros Hr Hd Hb Ht Hn.
  destruct (nth_error_lt r (t := t)) as [rt Hrt]; [lia|].
  destruct (get_shape Hd Ht Hn) as [x Hx].
  exists rt, x, (rt * inject_Z x).
  rewrite get_simulated, Hrt, Hx.
  repeat split; auto.
  destruct (get_binary Hb Hx) as [-> | ->]; [left|right]; split; auto.
  - change (inject_Z 0) with 0. ring.
  - change (inject_Z 1) with 1. ring.
Qed.

Lemma simulated_returns_cell_example :
  exists rt x v,
    nth_error example_returns 2 = Some rt /\
    get example_decisions 2 1 = Some x /\
    get (simulated_daily_returns example_returns example_decisions) 2 1 = Some v /\
    v = rt * inject_Z x /\
    ((x = 0%Z /\ v == 0) \/ (x = 1%Z /\ v == rt)).
Proof.
  apply (simulated_returns_cell example_returns example_decisions 4 2 2 1).
  - reflexivity.
  - literal.
  - unfold binary; literal.
  - lia.
  - lia.
Defined.

(** ** Benchmark against an always-invested column *)

Lemma invested_column (r : list Q) (d : list (list Z)) (n t : nat) :
  (forall k, (k < length r)%nat -> get d k n = Some 1%Z) ->
  (t < length r)%nat ->
  exists e b,
    get (equity_curves (simulated_daily_returns r d)) t n = Some e /\
    nth_error (benchmark_curve r) t = Some b /\
    e == b.
Proof.
  intros Hones Ht.
  apply (column_induction r d n (fun e b => e == b)); auto.
  - intros k Hk. exists 1%Z. auto.
  - intros r0 x Hr Hx. rewrite Hones in Hx by lia.
    injection Hx as <-. change (inject_Z 1) with 1. ring.
  - intros k e b rt x He Hr Hx.
    assert (Hk : (S k < length r)%nat).
    { apply nth_error_Some. rewrite Hr. discriminate. }
    rewrite (Hones _ Hk) in Hx. injection Hx as <-.
    change (inject_Z 1) with 1. rewrite He. ring.
Qed.

(** C2. When column [n] of the decision matrix is all ones, the equity
    curve of that column equals the benchmark curve on every day [t]. *)
Theorem benchmark_agrees_with_invested_column (r : list Q) (d : list (list Z))
    (n t : nat) :
  (forall k, (k < length r)%nat -> get d k n = Some 1%Z) ->
  (t < length r)%nat ->
  exists e b,
    get (equity_curves (simulated_daily_returns r d)) t n = Some e /\
    nth_error (benchmark_curve r) t = Some b /\
    e == b.
Proof. apply invested_column. Qed.

Lemma benchmark_agrees_with_invested_column_example :
  exists e b,
    get (equity_curves (simulated_daily_returns example_returns
                          [[1; 0]; [1; 1]; [1; 1]; [1; 0]]%Z)) 3 0 = Some e /\
    nth_error (benchmark_curve example_returns) 3 = Some b /\
    e == b.
Proof.
  apply (benchmark_agrees_with_invested_column example_returns
           [[1; 0]; [1; 1]; [1; 1]; [1; 0]]%Z 0 3).
  - intros k Hk. simpl in Hk.
    do 4 (destruct k as [|k]; [reflexivity|]). lia.
  - simpl. lia.
Defined.

(** ** Break-even on a flat series *)

(** C7. If every return is zero, every cell of the equity curve matrix is 1
    and every entry of the benchmark curve is 1, whatever the decisions. *)
Theorem flat_series_breaks_even (r : list Q) (d : list (list Z)) (T N : nat) :
  length r = T -> shape d T N -> Forall (fun x => x == 0) r ->
  (forall t n, (t < T)%nat -> (n < N)%nat ->
     exists e, get (equity_curves (simulated_daily_returns r d)) t n = Some e /\
               e == 1) /\
  (forall t, (t < T)%nat ->
     exists b, nth_error (benchmark_curve r) t = Some b /\ b == 1).
Proof.
  intros Hr Hd Hz. split.
  - intros t n Ht Hn.
    destruct (column_induction r d n (fun e _ => e == 1)) with (t := t)
      as (e & b & He & _ & H1); [| | | lia | eauto].
    + intros k Hk. apply (get_shape Hd); lia.
    + intros r0 x E _. rewrite (Forall_nth_error Hz E). ring.
    + intros k e b rt x He E _. rewrite (Forall_nth_error Hz E), He. ring.
  - intros t Ht.
    apply (benchmark_induction r (fun b => b == 1)); [| | lia].
    + intros r0 E. rewrite (Forall_nth_error Hz E). ring.
    + intros k b rt Hb E. rewrite (Forall_nth_error Hz E), Hb. ring.
Qed.

Lemma flat_series_breaks_even_example :
  (forall t n, (t < 3)%nat -> (n < 2)%nat ->
     exists e,
       get (equity_curves (simulated_daily_returns [0; 0; 0]
                             [[1; 0]; [0; 1]; [1; 1]]%Z)) t n = Some e /\
       e == 1) /\
  (forall t, (t < 3)%nat ->
     exists b, nth_error (benchmark_curve [0; 0; 0]) t = Some b /\ b == 1).
Proof.
  apply (flat_series_breaks_even [0; 0; 0] [[1; 0]; [0; 1]; [1; 1]]%Z 3 2).
  - reflexivity.
  - literal.
  - literal.
Defined.

(** ** Returns of positive prices *)

Lemma Forall_zipWith {A B C : Type} (PA : A -> Prop) (PB : B -> Prop)
    (PC : C -> Prop) (f : A -> B -> C) xs ys :
  (forall x y, PA x -> PB y -> PC (f x y)) ->
  Forall PA xs -> Forall PB ys -> Forall PC (zipWith f xs ys).
Proof.
  intros Hf Hxs; revert ys; induction Hxs as [|x xs Hx _ IH];
    intros ys Hys; [constructor|].
  destruct Hys as [|y ys Hy Hys]; constructor; auto.
Qed.

Lemma Forall_ffill_from seen s :
  positive_price seen -> Forall positive_price s ->
  Forall positive_price (ffill_from seen s).
Proof.
  intros Hseen Hs; revert seen Hseen;
    induction Hs as [|[p|] s Hp _ IH]; intros seen Hseen; simpl;
    constructor; auto.
Qed.

Lemma Forall_removelast {A : Type} (PA : A -> Prop) (s : list A) :
  Forall PA s -> Forall PA (removelast s).
Proof.
  induction 1 as [|x s Hx Hs IH]; [constructor|].
  destruct s as [|y s]; [constructor|].
  change (Forall PA (x :: removelast (y :: s))). constructor; auto.
Qed.

Lemma Forall_shift s : Forall positive_price s -> Forall positive_price (shift s).
Proof.
  intros Hs. destruct s as [|x s]; [constructor|].
  unfold shift. constructor; [exact I|]. now apply Forall_removelast.
Qed.

Lemma Forall_filled fm s :
  Forall positive_price s -> Forall positive_price (filled fm s).
Proof.
  destruct fm; [apply Forall_ffill_from; exact I|auto].
Qed.

Lemma change_positive x y :
  positive_price x -> positive_price y -> above_minus_one (fill0 (change x y)).
Proof.
  destruct x as [c|], y as [p|]; simpl; intros Hc Hp; try reflexivity.
  destruct (Qeq_bool p 0) eqn:E.
  - apply Qeq_bool_eq in E. rewrite E in Hp. exfalso. exact (Qlt_irrefl _ Hp).
  - simpl. assert (0 < c / p).
    { apply Qmult_lt_0_compat; [exact Hc|]. now apply Qinv_lt_0_compat. }
    lra.
Qed.

Lemma finite_above s :
  Forall above_minus_one s ->
  exists rs, finite s = Ok rs /\ Forall (fun x => -1 < x) rs.
Proof.
  induction 1 as [|c s Hc _ (rs & Hrs & IH)].
  - exists []. split; [reflexivity|constructor].
  - destruct c as [q| |]; simpl in Hc; try contradiction.
    exists (q :: rs). simpl. rewrite Hrs. split; [reflexivity|].
    constructor; auto.
Qed.

Lemma market_returns_above fm ps :
  Forall positive_price ps -> Forall above_minus_one (market_returns fm ps).
Proof.
  intros Hps. unfold market_returns, fillna, pct_change.
  rewrite Forall_map.
  apply (Forall_zipWith positive_price positive_price
           (fun c => above_minus_one (fill0 c)) change).
  - apply change_positive.
  - now apply Forall_filled.
  - now apply Forall_shift, Forall_filled.
Qed.

(** In exact arithmetic positive prices give a finite return series. *)
Lemma returns_of_positive_prices fm ps :
  Forall positive_price ps ->
  exists rs, finite (market_returns fm ps) = Ok rs /\
             Forall (fun x => -1 < x) rs.
Proof. intros Hps. now apply finite_above, market_returns_above. Qed.

(** ** Never negative *)

(** C9, as the script behaves. If every return is greater than -1 and every
    decision is 0 or 1, no cell of the equity curve matrix and no entry of
    the benchmark curve is negative; and a return computed from positive
    prices, with the undefined changes filled with 0, is at least -1
    where it is finite. *)
Theorem curves_nonnegative (r : list Q) (d : list (list Z)) (T N : nat) :
  length r = T -> shape d T N -> binary d -> Forall (fun x => -1 < x) r ->
  (forall t n, (t < T)%nat -> (n < N)%nat ->
     exists e, get (equity_curves (simulated_daily_returns r d)) t n = Some e /\
               0 <= e) /\
  (forall t, (t < T)%nat ->
     exists b, nth_error (benchmark_curve r) t = Some b /\ 0 <= b) /\
  (forall fm ps,
     Forall positive_price ps ->
     Forall at_least_minus_one (market_returns fm ps)).
Proof.
  intros Hr Hd Hb Hgt.
  assert (Hf : forall rt x, -1 < rt -> x = 0%Z \/ x = 1%Z ->
                            0 <= 1 + rt * inject_Z x).
  { intros rt x Hrt [-> | ->].
    - change (inject_Z 0) with 0. lra.
    - change (inject_Z 1) with 1. lra. }
  split; [|split].
  - intros t n Ht Hn.
    destruct (column_induction r d n (fun e _ => 0 <= e)) with (t := t)
      as (e & b & He & _ & H1); [| | | lia | eauto].
    + intros k Hk. apply (get_shape Hd); lia.
    + intros r0 x E Hx. apply Hf.
      * exact (Forall_nth_error Hgt E).
      * exact (get_binary Hb Hx).
    + intros k e b rt x He E Hx. apply Qmult_le_0_compat; [exact He|].
      apply Hf.
      * exact (Forall_nth_error Hgt E).
      * exact (get_binary Hb Hx).
  - intros t Ht.
    apply (benchmark_induction r (fun b => 0 <= b)); [| | lia].
    + intros r0 E. pose proof (Forall_nth_error Hgt E). simpl in *. lra.
    + intros k b rt H0 E. apply Qmult_le_0_compat; [exact H0|].
      pose proof (Forall_nth_error Hgt E). simpl in *. lra.
  - intros fm ps Hps.
    eapply Forall_impl; [|exact (market_returns_above fm ps Hps)].
    intros [q| |]; simpl; auto. intros H. lra.
Qed.

Lemma curves_nonnegative_example :
  (forall t n, (t < 4)%nat -> (n < 2)%nat ->
     exists e,
       get (equity_curves (simulated_daily_returns example_returns
                             example_decisions)) t n = Some e /\
       0 <= e) /\
  (forall t, (t < 4)%nat ->
     exists b, nth_error (benchmark_curve example_returns) t = Some b /\
               0 <= b) /\
  (forall fm ps,
     Forall positive_price ps ->
     Forall at_least_minus_one (market_returns fm ps)).
Proof.
  apply (curves_nonnegative example_returns example_decisions 4 2).
  - reflexivity.
  - literal.
  - unfold binary; literal.
  - literal.
Defined.

Module Rounding.
Import PrimFloat.

(** C9 as claimed fails in binary64. The return of the positive prices
    2^60, 1 is exactly -1, not above it. And on 22 days of prices that stay
    positive while falling by the factor 2^-53 a day, every return is above
    -1, yet on the last day the benchmark and the equity of the strategy
    that is always invested have underflowed to 0. *)
Lemma positivity_lost_in_binary64 :
  Binary64.market_returns [0x1p60; 1]%float = [0; -1]%float /\
  let ps := Binary64.falling_prices 0x1p1000%float 22 in
  let r := Binary64.market_returns ps in
  let d := repeat [1%Z] 22 in
  forallb (fun p => 0 <? p)%float ps = true /\
  forallb (fun x => -1 <? x)%float r = true /\
  nth_error (Binary64.benchmark_curve r) 21 = Some 0%float /\
  get (Binary64.equity_curves (Binary64.simulated_daily_returns r d)) 21 0
    = Some 0%float /\
  (0 <? 0)%float = false.
Proof. repeat split; vm_compute; reflexivity. Qed.

End Rounding.

(** ** No strategy ahead of buy and hold without a losing day *)

(** C10. If every return is nonnegative and every decision is 0 or 1, every
    cell (t, n) of the equity curve matrix is at most the benchmark curve
    at [t]. *)
Theorem equity_below_benchmark (r : list Q) (d : list (list Z)) (T N t n : nat) :
  length r = T -> shape d T N -> binary d -> Forall (fun x => 0 <= x) r ->
  (t < T)%nat -> (n < N)%nat ->
  exists e b,
    get (equity_curves (simulated_daily_returns r d)) t n = Some e /\
    nth_error (benchmark_curve r) t = Some b /\
    e <= b.
Proof.
  intros Hr Hd Hb Hge Ht Hn.
  destruct (column_induction r d n (fun e b => 0 <= e /\ e <= b)) with (t := t)
    as (e & b & He & Hbt & _ & Hle); [| | | lia | eauto].
  - intros k Hk. apply (get_shape Hd); lia.
  - intros r0 x E Hx. pose proof (Forall_nth_error Hge E) as H0.
    simpl in H0.
    destruct (get_binary Hb Hx) as [-> | ->].
    + change (inject_Z 0) with 0. split; lra.
    + change (inject_Z 1) with 1. split; lra.
  - intros k e b rt x [He Hle] E Hx.
    pose proof (Forall_nth_error Hge E) as H0. simpl in H0.
    destruct (get_binary Hb Hx) as [-> | ->].
    + change (inject_Z 0) with 0. split; nra.
    + change (inject_Z 1) with 1. split; nra.
Qed.

Lemma equity_below_benchmark_example :
  exists e b,
    get (equity_curves (simulated_daily_returns [0; 1 # 10; 1 # 20]
                          [[1; 0]; [1; 1]; [0; 1]]%Z)) 2 1 = Some e /\
    nth_error (benchmark_curve [0; 1 # 10; 1 # 20]) 2 = Some b /\
    e <= b.
Proof.
  apply (equity_below_benchmark [0; 1 # 10; 1 # 20]
           [[1; 0]; [1; 1]; [0; 1]]%Z 3 2 2 1).
  - reflexivity.
  - literal.
  - unfold binary; literal.
  - literal.
  - lia.
  - lia.
Defined.

(** ** Shapes of the simulation's arrays *)

Lemma length_cumprod_from acc a : length (Numpy.cumprod_from acc a) = length a.
Proof. revert acc; induction a as [|x a IH]; intros acc; simpl; auto. Qed.

Lemma length_cumprod a : length (Numpy.cumprod a) = length a.
Proof. destruct a; simpl; [reflexivity|]. now rewrite length_cumprod_from. Qed.

Lemma length_benchmark_curve r : length (benchmark_curve r) = length r.
Proof.
  unfold benchmark_curve, Numpy.one_plus. now rewrite length_cumprod, length_map.
Qed.

Lemma shape_cumprod_rows_from acc m N :
  length acc = N -> Forall (fun row => length row = N) m ->
  length (Numpy.cumprod_rows_from acc m) = length m /\
  Forall (fun row => length row = N) (Numpy.cumprod_rows_from acc m).
Proof.
  revert acc; induction m as [|row m IH]; intros acc Hacc Hm; simpl.
  - split; [reflexivity|constructor].
  - inversion Hm as [|? ? Hrow Hm']; subst.
    assert (Hout : length (zipWith Qmult acc row) = length acc).
    { rewrite length_zipWith, Hrow. apply Nat.min_id. }
    destruct (IH (zipWith Qmult acc row)) as [IH1 IH2]; [congruence|assumption|].
    split; [now rewrite IH1|]. constructor; assumption.
Qed.

Lemma shape_cumprod_axis0 m T N : shape m T N -> shape (Numpy.cumprod_axis0 m) T N.
Proof.
  intros [HT HN]. destruct m as [|row m]; [split; assumption|].
  inversion HN as [|? ? Hrow Hm]; subst.
  destruct (shape_cumprod_rows_from row m _ eq_refl Hm) as [H1 H2].
  split; simpl; [now rewrite H1|]. constructor; auto.
Qed.

Lemma shape_simulated r d T N :
  length r = T -> shape d T N -> shape (simulated_daily_returns r d) T N.
Proof.
  intros Hr [HT HN]. subst T. unfold simulated_daily_returns, Numpy.broadcast_mul.
  revert d HT HN; induction r as [|x r IH]; intros [|row d] HT HN;
    simpl in HT; try discriminate.
  - split; [reflexivity|constructor].
  - inversion HN as [|? ? Hrow Hd]; subst.
    destruct (IH d) as [H1 H2]; [lia|assumption|].
    split; simpl; [now rewrite H1|].
    constructor; [apply length_map|assumption].
Qed.

Lemma shape_one_plus2 m T N : shape m T N -> shape (Numpy.one_plus2 m) T N.
Proof.
  intros [HT HN]. unfold Numpy.one_plus2, Numpy.one_plus. split.
  - now rewrite length_map.
  - rewrite Forall_map. eapply Forall_impl; [|exact HN].
    intros row Hrow. simpl. now rewrite length_map.
Qed.

(** The equity curve matrix has the shape of the decision matrix. *)
Lemma shape_equity r d T N :
  length r = T -> shape d T N ->
  shape (equity_curves (simulated_daily_returns r d)) T N.
Proof.
  intros Hr Hd. unfold equity_curves.
  now apply shape_cumprod_axis0, shape_one_plus2, shape_simulated.
Qed.

Lemma last_item_nth {A : Type} (a : list A) x :
  nth_error a (pred (length a)) = Some x -> last_item a = Ok x.
Proof.
  induction a as [|y a IH]; [discriminate|].
  destruct a as [|z a]; simpl.
  - intros H. now injection H as ->.
  - intros H. apply IH. exact H.
Qed.


(** ** Beating the benchmark *)

Lemma Qgt_bool_spec v b :
  Numpy.Qgt_bool v b = if Qlt_le_dec b v then true else false.
Proof.
  unfold Numpy.Qgt_bool. destruct (Qlt_le_dec b v) as [Hlt|Hle].
  - destruct (Qle_bool v b) eqn:E; [|reflexivity].
    apply Qle_bool_iff in E. exfalso. exact (Qlt_not_le _ _ Hlt E).
  - apply Qle_bool_iff in Hle. now rewrite Hle.
Qed.

Lemma sum_gt_from fv b acc :
  fold_left Z.add (map (fun v => if Numpy.Qgt_bool v b then 1%Z else 0%Z) fv) acc
  = (acc + Z.of_nat (length (strictly_above b fv)))%Z.
Proof.
  revert acc; induction fv as [|v fv IH]; intros acc; simpl; [lia|].
  rewrite IH, Qgt_bool_spec. destruct (Qlt_le_dec b v); simpl length; lia.
Qed.

Lemma beat_benchmark_count fv bf :
  beat_benchmark fv bf = Z.of_nat (length (strictly_above bf fv)).
Proof. unfold beat_benchmark, Numpy.sum_gt. now rewrite sum_gt_from. Qed.

Lemma single_cell {A : Type} (row : list A) x :
  length row = 1%nat -> nth_error row 0 = Some x -> row = [x].
Proof.
  destruct row as [|y [|z row]]; simpl; try discriminate.
  intros _ H. now injection H as ->.
Qed.

(** C6. The analysis counts exactly the final values strictly greater than
    the benchmark's final value; so with one simulation whose decision
    column is all ones, nothing is counted and the reported probability of
    beating the benchmark is 0. *)
Theorem beat_benchmark_strict (fv : list Q) (bf : Q) (r : list Q)
    (d : list (list Z)) :
  r <> [] -> shape d (length r) 1 ->
  (forall t, (t < length r)%nat -> get d t 0 = Some 1%Z) ->
  beat_benchmark fv bf = Z.of_nat (length (strictly_above bf fv)) /\
  (forall v, In v (strictly_above bf fv) <-> In v fv /\ bf < v) /\
  exists rep,
    analyse (simulation_of r d) 1 = Ok rep /\
    beaten rep = 0%Z /\
    probability rep == 0.
Proof.
  intros Hne Hd Hones.
  split; [apply beat_benchmark_count|]. split.
  - intros v. unfold strictly_above. rewrite filter_In.
    destruct (Qlt_le_dec bf v) as [Hlt|Hle]; split; intros [Hin H]; split; auto.
    + discriminate.
    + exfalso. exact (Qlt_not_le _ _ H Hle).
  - assert (HT : (pred (length r) < length r)%nat).
    { destruct r; [congruence|simpl; lia]. }
    destruct (invested_column r d 0 _ Hones HT) as (e & b & He & Hb & Heb).
    destruct (shape_equity r d _ _ eq_refl Hd) as [HE1 HE2].
    set (E := equity_curves (simulated_daily_returns r d)) in *.
    assert (Hfv : final_values E = Ok [e]).
    { unfold final_values. apply last_item_nth. rewrite HE1.
      unfold get in He.
      destruct (nth_error E (pred (length r))) as [row|] eqn:Erow;
        [|discriminate].
      f_equal. apply single_cell; [|exact He].
      exact (Forall_nth_error HE2 Erow). }
    assert (Hbf : benchmark_final (benchmark_curve r) = Ok b).
    { unfold benchmark_final. apply last_item_nth.
      now rewrite length_benchmark_curve. }
    assert (Hbeat : beat_benchmark [e] b = 0%Z).
    { rewrite beat_benchmark_count. unfold strictly_above. simpl.
      destruct (Qlt_le_dec b e) as [Hlt|_]; [|reflexivity].
      exfalso. rewrite Heb in Hlt. exact (Qlt_irrefl _ Hlt). }
    unfold analyse, simulation_of; cbn [sim_equity sim_benchmark].
    fold E. rewrite Hfv, Hbf. cbn [bind Numpy.max Numpy.min fold_left].
    rewrite Hbeat. eexists. split; [reflexivity|].
    split; reflexivity.
Qed.

Lemma beat_benchmark_strict_example :
  beat_benchmark [231 # 200; 99 # 100; 2079 # 2000] (2079 # 2000)
    = Z.of_nat (length (strictly_above (2079 # 2000)
                          [231 # 200; 99 # 100; 2079 # 2000])) /\
  (forall v, In v (strictly_above (2079 # 2000)
                     [231 # 200; 99 # 100; 2079 # 2000])
             <-> In v [231 # 200; 99 # 100; 2079 # 2000] /\ 2079 # 2000 < v) /\
  exists rep,
    analyse (simulation_of example_returns [[1]; [1]; [1]; [1]]%Z) 1 = Ok rep /\
    beaten rep = 0%Z /\
    probability rep == 0.
Proof.
  apply (beat_benchmark_strict [231 # 200; 99 # 100; 2079 # 2000]
           (2079 # 2000) example_returns [[1]; [1]; [1]; [1]]%Z).
  - discriminate.
  - literal.
  - intros t Ht. simpl in Ht.
    do 4 (destruct t as [|t]; [reflexivity|]). lia.
Defined.

(** ** The decisions drawn *)

Lemma choice1_binary u :
  let x := Numpy.choice1 [0; 1]%Z [1 # 2; 1 # 2] u in x = 0%Z \/ x = 1%Z.
Proof.
  unfold Numpy.choice1. simpl List.last.
  destruct (Numpy.searchsorted_right _ u) as [|[|[|k]]]; simpl; auto.
Qed.

Lemma decision_matrix_drawn T N g :
  (0 <= N)%Z -> Numpy.fits T N = true ->
  exists d, decision_matrix T N g = Ok d /\ shape d T (Z.to_nat N) /\ binary d.
Proof.
  intros HN Hfit. unfold decision_matrix, Numpy.random_choice.
  destruct (N <? 0)%Z eqn:E; [apply Z.ltb_lt in E; lia|].
  rewrite Hfit. cbn [orb negb].
  eexists. split; [reflexivity|]. split; [split|].
  - now rewrite length_map, length_seq.
  - rewrite Forall_map. apply Forall_forall. intros t _.
    now rewrite length_map, length_seq.
  - unfold binary. rewrite Forall_map. apply Forall_forall. intros t _.
    rewrite Forall_map. apply Forall_forall. intros k _. apply choice1_binary.
Qed.

Lemma decision_matrix_negative T N g :
  (N < 0)%Z -> decision_matrix T N g = Raise ValueError.
Proof.
  intros HN. unfold decision_matrix, Numpy.random_choice.
  apply Z.ltb_lt in HN. now rewrite HN.
Qed.

Lemma decision_matrix_too_big T N g :
  Numpy.fits T N = false -> decision_matrix T N g = Raise ValueError.
Proof.
  intros H. unfold decision_matrix, Numpy.random_choice.
  rewrite H. now rewrite orb_true_r.
Qed.

(** A matrix is drawn only for a count that is not negative and a shape
    within the limit. *)
Lemma decision_matrix_ok T N g d :
  decision_matrix T N g = Ok d ->
  (0 <= N)%Z /\ Numpy.fits T N = true /\ shape d T (Z.to_nat N) /\ binary d.
Proof.
  intros Hd.
  destruct (Z.lt_ge_cases N 0) as [Hneg|Hpos].
  { rewrite decision_matrix_negative in Hd by assumption. discriminate Hd. }
  destruct (Numpy.fits T N) eqn:Hfit.
  - destruct (decision_matrix_drawn T N g Hpos Hfit) as (d' & Hd' & Hs & Hb).
    rewrite Hd in Hd'. injection Hd' as <-. auto.
  - rewrite decision_matrix_too_big in Hd by assumption. discriminate Hd.
Qed.

Lemma fits_no_columns T : Numpy.fits T 0 = true.
Proof. unfold Numpy.fits. now rewrite Z.mul_0_r. Qed.

Lemma fits_beyond_dimension T N :
  (Numpy.max_dimension < N)%Z -> Numpy.fits T N = false.
Proof.
  intros H. unfold Numpy.fits. apply Z.leb_gt.
  set (m := Z.max 1 (Z.of_nat T)).
  assert (Hm : (1 <= m)%Z) by (unfold m; lia).
  assert (H0 : (0 < N)%Z) by (unfold Numpy.max_dimension in H; lia).
  assert (Hp : (0 <= (8 * m - 1) * N)%Z) by (apply Z.mul_nonneg_nonneg; lia).
  replace (8 * m * N)%Z with ((8 * m - 1) * N + N)%Z by ring. lia.
Qed.



(** ** A return of -1 *)


(** ** A frame without rows *)

Lemma column_absent label data :
  ~ In label (map fst data) -> column label data = [].
Proof.
  induction data as [|[l v] data IH]; intros H; [reflexivity|].
  simpl in *. destruct (String.eqb l label) eqn:E.
  - apply String.eqb_eq in E. tauto.
  - apply IH. tauto.
Qed.

(** In a frame whose labels are all different a label that is there
    selects one column. *)
Lemma column_single label data :
  NoDup (map fst data) -> has_column label data = true ->
  exists v, column label data = [v] /\ In (label, v) data.
Proof.
  induction data as [|[l v] data IH]; intros Hnd Hc; [discriminate Hc|].
  simpl in *. inversion Hnd as [|? ? Hl Hnd']; subst.
  destruct (String.eqb l label) eqn:E.
  - apply String.eqb_eq in E. subst l. exists v.
    rewrite (column_absent label data Hl). auto.
  - simpl in Hc. destruct (IH Hnd' Hc) as (w & Hw & Hin). eauto.
Qed.

Lemma prices_zero_rows data :
  zero_rows data -> data <> [] -> NoDup (map fst data) -> prices data = Ok [].
Proof.
  intros Hz Hne Hnd. unfold prices.
  destruct (has_column "Close" data) eqn:Hc.
  - destruct (column_single _ data Hnd Hc) as (v & -> & Hin).
    unfold zero_rows in Hz. rewrite Forall_forall in Hz.
    pose proof (Hz _ Hin) as Hv. simpl in Hv. now subst v.
  - destruct data as [|[l v] data]; [congruence|].
    inversion Hz as [|? ? Hv _]; subst. simpl in *. now rewrite Hv.
Qed.

Lemma market_returns_nil fm : market_returns fm [] = [].
Proof. destruct fm; reflexivity. Qed.

(** C4, as the script behaves. On a frame that has a column but no rows,
    its labels all different, and with a simulation count that is not
    negative and within the limit on the size of an array, loading
    succeeds with an empty return series, the simulation builds its
    arrays with no rows, and the run raises IndexError only in the
    analysis, at the last row of the equity curves. *)
Theorem zero_rows_fail_in_analysis (fm : fill_method) (data : DataFrame)
    (N : Z) (g : Numpy.RandomState) :
  zero_rows data -> data <> [] -> NoDup (map fst data) ->
  (0 <= N)%Z -> Numpy.fits 0 N = true ->
  load fm data = Ok [] /\
  simulate [] N g = Ok empty_simulation /\
  analyse empty_simulation N = Raise IndexError /\
  run fm data N g = Raise IndexError.
Proof.
  intros Hz Hne Hnd HN Hfit.
  assert (Hload : load fm data = Ok []).
  { unfold load. rewrite (prices_zero_rows data Hz Hne Hnd). simpl.
    now rewrite market_returns_nil. }
  assert (Hsim : simulate [] N g = Ok empty_simulation).
  { unfold simulate.
    destruct (decision_matrix_drawn 0 N g HN Hfit) as (d & Hd & [Hlen _] & _).
    apply length_zero_iff_nil in Hlen. subst d.
    cbn [length]. rewrite Hd. reflexivity. }
  split; [exact Hload|]. split; [exact Hsim|]. split; [reflexivity|].
  unfold run. rewrite Hload. cbn [bind]. rewrite Hsim. reflexivity.
Qed.

Lemma zero_rows_fail_in_analysis_example :
  load no_fill [("Close"%string, [])] = Ok [] /\
  simulate [] 10000 (fun _ => 0) = Ok empty_simulation /\
  analyse empty_simulation 10000 = Raise IndexError /\
  run no_fill [("Close"%string, [])] 10000 (fun _ => 0) = Raise IndexError.
Proof.
  apply (zero_rows_fail_in_analysis no_fill [("Close"%string, [])] 10000
           (fun _ => 0)).
  - unfold zero_rows. literal.
  - discriminate.
  - repeat constructor. intros [].
  - lia.
  - reflexivity.
Defined.

(** C4 as claimed fails: a frame with a Close column and no rows does not
    stop the run before the simulation. *)
Lemma zero_rows_reach_simulation :
  zero_rows [("Close"%string, [])] /\
  (forall fm, ~ fails_before_simulation fm [("Close"%string, [])]) /\
  ~ (forall fm data, zero_rows data -> fails_before_simulation fm data).
Proof.
  assert (Hz : zero_rows [("Close"%string, [])]) by (unfold zero_rows; literal).
  assert (Hn : forall fm, ~ fails_before_simulation fm [("Close"%string, [])]).
  { intros fm [e He]. destruct fm; discriminate He. }
  split; [exact Hz|]. split; [exact Hn|].
  intros H. exact (Hn no_fill (H no_fill _ Hz)).
Qed.

(** ** When the engine refuses *)




(** ** Drawing again with the same seed *)




(** Without the seed the second of two runs in one process draws from
    where the first has left the generator, and its matrix can differ. *)
Lemma unseeded_runs_can_differ :
  let g := fun k => if Nat.even k then 1 # 4 else 3 # 4 in
  fst (draw 1 1 g) = Ok [[0%Z]] /\
  fst (draw 1 1 (snd (draw 1 1 g))) = Ok [[1%Z]].
Proof. split; reflexivity. Qed.

(** * Further properties of the script *)

(** ** The coin flips *)

Lemma choice1_coin u :
  u < 1 -> Numpy.choice1 [0; 1]%Z [1 # 2; 1 # 2] u = coin u.
Proof.
  intros Hu. unfold Numpy.choice1, Numpy.searchsorted_right, Numpy.cumsum, coin.
  cbn [Numpy.cumsum_from filter].
  assert (H1 : Qle_bool (0 + (1 # 2)) u = Qle_bool (1 # 2) u) by reflexivity.
  assert (H2 : Qle_bool (0 + (1 # 2) + (1 # 2)) u = false).
  { destruct (Qle_bool (0 + (1 # 2) + (1 # 2)) u) eqn:E; [|reflexivity].
    apply Qle_bool_iff in E. lra. }
  rewrite H1, H2. destruct (Qle_bool (1 # 2) u); reflexivity.
Qed.

Lemma get_map_seq {A : Type} (f : nat -> nat -> A) T N t n :
  (t < T)%nat -> (n < N)%nat ->
  get (map (fun t => map (fun k => f t k) (seq 0 N)) (seq 0 T)) t n
  = Some (f t n).
Proof.
  intros Ht Hn. unfold get.
  rewrite nth_error_map, nth_error_seq.
  destruct (Nat.ltb_spec t T) as [_|]; [|lia]. simpl.
  rewrite nth_error_map, nth_error_seq.
  destruct (Nat.ltb_spec n N) as [_|]; [|lia]. reflexivity.
Qed.

(** X1. Whenever the decision matrix is drawn, from samples below 1, it
    has T rows of N cells, every cell is 0 or 1, and cell (t, n) is decided
    by sample number [t * N + n] alone: invested exactly when that sample
    is at least one half. *)
Theorem decision_matrix_cells (T : nat) (N : Z) (g : Numpy.RandomState)
    (d : list (list Z)) :
  decision_matrix T N g = Ok d -> unit_samples g ->
  shape d T (Z.to_nat N) /\
  binary d /\
  forall t n, (t < T)%nat -> (n < Z.to_nat N)%nat ->
    get d t n = Some (coin (g (t * Z.to_nat N + n)%nat)).
Proof.
  intros Hd Hg.
  destruct (decision_matrix_ok T N g d Hd) as (HN & Hfit & Hs & Hb).
  split; [exact Hs|]. split; [exact Hb|].
  intros t n Ht Hn.
  unfold decision_matrix, Numpy.random_choice in Hd.
  destruct ((N <? 0)%Z || negb (Numpy.fits T N)); [discriminate|].
  injection Hd as <-.
  rewrite (get_map_seq
             (fun t k => Numpy.choice1 [0; 1]%Z [1 # 2; 1 # 2]
                           (g (t * Z.to_nat N + k)%nat)) T _ t n Ht Hn).
  now rewrite choice1_coin.
Qed.

Lemma decision_matrix_cells_example :
  shape [[0; 1]; [0; 1]]%Z 2 (Z.to_nat 2) /\
  binary [[0; 1]; [0; 1]]%Z /\
  forall t n, (t < 2)%nat -> (n < Z.to_nat 2)%nat ->
    get [[0; 1]; [0; 1]]%Z t n
    = Some (coin (if Nat.even (t * Z.to_nat 2 + n) then 1 # 4 else 3 # 4)).
Proof.
  apply (decision_matrix_cells 2 2
           (fun k => if Nat.even k then 1 # 4 else 3 # 4)).
  - reflexivity.
  - intros k. destruct (Nat.even k); reflexivity.
Defined.

(** ** Days in cash and days invested *)

(** X2. The equity of a strategy starts at [1 + r[0] * d[0, n]]; from one
    day to the next it stays as it is when the strategy is in cash and is
    multiplied by [1 + r[t+1]] when it is invested. *)
Theorem equity_day_by_day (r : list Q) (d : list (list Z)) (T N t n : nat) :
  length r = T -> shape d T N -> binary d -> (S t < T)%nat -> (n < N)%nat ->
  exists e e' rt x,
    get (equity_curves (simulated_daily_returns r d)) t n = Some e /\
    get (equity_curves (simulated_daily_returns r d)) (S t) n = Some e' /\
    nth_error r (S t) = Some rt /\
    get d (S t) n = Some x /\
    ((x = 0%Z /\ e' == e) \/ (x = 1%Z /\ e' == e * (1 + rt))).
Proof.
  intros Hr Hd Hb Ht Hn.
  pose proof (shape_equity r d T N Hr Hd) as HE.
  destruct (get_shape HE (t := t) (n := n)) as [e He]; [lia|assumption|].
  destruct (nth_error_lt r (t := S t)) as [rt Hrt]; [lia|].
  destruct (get_shape Hd Ht Hn) as [x Hx].
  exists e, (e * (1 + rt * inject_Z x)), rt, x.
  rewrite equity_S, He. unfold factor. rewrite Hrt, Hx.
  repeat split; auto.
  destruct (get_binary Hb Hx) as [-> | ->]; [left|right]; split; auto.
  - change (inject_Z 0) with 0. ring.
  - change (inject_Z 1) with 1. ring.
Qed.

Lemma equity_day_by_day_example :
  exists e e' rt x,
    get (equity_curves (simulated_daily_returns example_returns
                          example_decisions)) 1 0 = Some e /\
    get (equity_curves (simulated_daily_returns example_returns
                          example_decisions)) 2 0 = Some e' /\
    nth_error example_returns 2 = Some rt /\
    get example_decisions 2 0 = Some x /\
    ((x = 0%Z /\ e' == e) \/ (x = 1%Z /\ e' == e * (1 + rt))).
Proof.
  apply (equity_day_by_day example_returns example_decisions 4 2 1 0).
  - reflexivity.
  - literal.
  - unfold binary; literal.
  - lia.
  - lia.
Defined.

(** X3. A strategy that is never invested breaks even on every day,
    whatever the returns. *)
Theorem always_in_cash_breaks_even (r : list Q) (d : list (list Z)) (n t : nat) :
  (forall k, (k < length r)%nat -> get d k n = Some 0%Z) ->
  (t < length r)%nat ->
  exists e, get (equity_curves (simulated_daily_returns r d)) t n = Some e /\
            e == 1.
Proof.
  intros Hz Ht.
  destruct (column_induction r d n (fun e _ => e == 1)) with (t := t)
    as (e & b & He & _ & H1); [| | | assumption | eauto].
  - intros k Hk. eauto.
  - intros r0 x _ Hx. rewrite Hz in Hx by lia. injection Hx as <-.
    change (inject_Z 0) with 0. ring.
  - intros k e b rt x He Hr Hx.
    assert (Hk : (S k < length r)%nat).
    { apply nth_error_Some. rewrite Hr. discriminate. }
    rewrite (Hz _ Hk) in Hx. injection Hx as <-.
    change (inject_Z 0) with 0. rewrite He. ring.
Qed.

Lemma always_in_cash_breaks_even_example :
  exists e,
    get (equity_curves (simulated_daily_returns example_returns
                          [[1; 0]; [1; 0]; [0; 0]; [1; 0]]%Z)) 3 1 = Some e /\
    e == 1.
Proof.
  apply (always_in_cash_breaks_even example_returns
           [[1; 0]; [1; 0]; [0; 0]; [1; 0]]%Z 1 3).
  - intros k Hk. simpl in Hk.
    do 4 (destruct k as [|k]; [reflexivity|]). lia.
  - simpl. lia.
Defined.

(** ** Paths do not touch each other *)

Lemma factor_column r d1 d2 n t :
  get d1 t n = get d2 t n -> factor r d1 t n = factor r d2 t n.
Proof. intros H. unfold factor. now rewrite H. Qed.

(** X4. The equity curve of strategy [n] depends on column [n] of the
    decisions only: two decision matrices that agree on that column give
    the same equity in it on every day. *)
Theorem equity_column_independent (r : list Q) (d1 d2 : list (list Z))
    (n t : nat) :
  (forall k, get d1 k n = get d2 k n) ->
  get (equity_curves (simulated_daily_returns r d1)) t n
  = get (equity_curves (simulated_daily_returns r d2)) t n.
Proof.
  intros Hcol. induction t as [|t IH].
  - rewrite !equity_0. now apply factor_column.
  - rewrite !equity_S, IH. f_equal. now apply factor_column.
Qed.

Lemma equity_column_independent_example :
  get (equity_curves (simulated_daily_returns example_returns
                        example_decisions)) 3 1
  = get (equity_curves (simulated_daily_returns example_returns
                          [[0; 0]; [0; 1]; [1; 1]; [1; 0]]%Z)) 3 1.
Proof.
  apply (equity_column_independent example_returns example_decisions
           [[0; 0]; [0; 1]; [1; 1]; [1; 0]]%Z 1 3).
  intros k. do 4 (destruct k as [|k]; [reflexivity|]).
  unfold get. simpl. destruct k; reflexivity.
Defined.

(** ** No look-ahead *)

Lemma firstn_zipWith {A B C : Type} (f : A -> B -> C) k xs ys :
  zipWith f (firstn k xs) (firstn k ys) = firstn k (zipWith f xs ys).
Proof.
  revert xs ys; induction k as [|k IH]; intros [|x xs] [|y ys]; simpl; auto.
  now rewrite IH.
Qed.

Lemma firstn_cumprod_from k acc a :
  Numpy.cumprod_from acc (firstn k a) = firstn k (Numpy.cumprod_from acc a).
Proof.
  revert acc a; induction k as [|k IH]; intros acc [|x a]; simpl; auto.
  now rewrite IH.
Qed.

Lemma firstn_cumprod k a :
  Numpy.cumprod (firstn k a) = firstn k (Numpy.cumprod a).
Proof.
  destruct k as [|k], a as [|x a]; simpl; auto.
  now rewrite firstn_cumprod_from.
Qed.

Lemma firstn_cumprod_rows_from k acc m :
  Numpy.cumprod_rows_from acc (firstn k m)
  = firstn k (Numpy.cumprod_rows_from acc m).
Proof.
  revert acc m; induction k as [|k IH]; intros acc [|row m]; simpl; auto.
  now rewrite IH.
Qed.

Lemma firstn_cumprod_axis0 k m :
  Numpy.cumprod_axis0 (firstn k m) = firstn k (Numpy.cumprod_axis0 m).
Proof.
  destruct k as [|k], m as [|row m]; simpl; auto.
  now rewrite firstn_cumprod_rows_from.
Qed.

(** X5. The curves up to a day do not depend on what comes after it: run on
    the first [k] days of the returns and of the decisions, the engine
    gives the first [k] rows of the equity curves and the first [k] entries
    of the benchmark curve. *)
Theorem curves_have_no_lookahead (r : list Q) (d : list (list Z)) (k : nat) :
  equity_curves (simulated_daily_returns (firstn k r) (firstn k d))
  = firstn k (equity_curves (simulated_daily_returns r d)) /\
  benchmark_curve (firstn k r) = firstn k (benchmark_curve r).
Proof.
  split.
  - unfold equity_curves, simulated_daily_returns, Numpy.broadcast_mul,
      Numpy.one_plus2.
    now rewrite firstn_zipWith, <- firstn_map, firstn_cumprod_axis0.
  - unfold benchmark_curve, Numpy.one_plus.
    now rewrite <- firstn_map, firstn_cumprod.
Qed.

(** ** How a run ends *)

Lemma final_row (r : list Q) (d : list (list Z)) (N : nat) :
  r <> [] -> shape d (length r) N ->
  exists fv b,
    final_values (equity_curves (simulated_daily_returns r d)) = Ok fv /\
    length fv = N /\
    (forall n, nth_error fv n
               = get (equity_curves (simulated_daily_returns r d))
                     (pred (length r)) n) /\
    benchmark_final (benchmark_curve r) = Ok b /\
    nth_error (benchmark_curve r) (pred (length r)) = Some b.
Proof.
  intros Hne Hd.
  assert (HT : (pred (length r) < length r)%nat).
  { destruct r; [congruence|simpl; lia]. }
  destruct (shape_equity r d _ _ eq_refl Hd) as [HE1 HE2].
  set (E := equity_curves (simulated_daily_returns r d)) in *.
  destruct (nth_error_lt E (t := pred (length r))) as [fv Hfv]; [lia|].
  destruct (nth_error_lt (benchmark_curve r) (t := pred (length r)))
    as [b Hb]; [rewrite length_benchmark_curve; lia|].
  exists fv, b. split; [|split; [|split; [|split]]].
  - apply last_item_nth. now rewrite HE1.
  - exact (Forall_nth_error HE2 Hfv).
  - intros n. unfold get. now rewrite Hfv.
  - apply last_item_nth. now rewrite length_benchmark_curve.
  - exact Hb.
Qed.

Lemma simulate_ok (r : list Q) (N : Z) (g : Numpy.RandomState) (s : simulation) :
  simulate r N g = Ok s ->
  (0 <= N)%Z /\
  exists d, s = simulation_of r d /\ shape d (length r) (Z.to_nat N) /\ binary d.
Proof.
  intros Hs. unfold simulate in Hs.
  destruct (decision_matrix (length r) N g) as [d| | |] eqn:Hd;
    try discriminate Hs.
  injection Hs as <-.
  destruct (decision_matrix_ok _ _ _ _ Hd) as (HN & _ & Hsh & Hb).
  split; [assumption|]. exists d. auto.
Qed.

(** X6. What becomes of the stages after loading, case by case. A
    negative count, and a count beyond the largest dimension of an array,
    stop the simulation with ValueError. When the decisions are drawn, an
    empty return series gets through the simulation and stops the analysis
    with IndexError. A count of 0 on a series that is not empty stops the
    analysis with ValueError. And when the decisions are drawn for a count
    of at least 1 on a series that is not empty, the report is printed. *)
Theorem simulation_and_analysis_outcomes (r : list Q) (N : Z)
    (g : Numpy.RandomState) :
  ((N < 0)%Z -> (s <- simulate r N g ;; analyse s N) = Raise ValueError) /\
  ((Numpy.max_dimension < N)%Z ->
     (s <- simulate r N g ;; analyse s N) = Raise ValueError) /\
  (forall d, decision_matrix (length r) N g = Ok d -> r = [] ->
     (s <- simulate r N g ;; analyse s N) = Raise IndexError) /\
  (N = 0%Z -> r <> [] ->
     (s <- simulate r N g ;; analyse s N) = Raise ValueError) /\
  (forall d, decision_matrix (length r) N g = Ok d -> (1 <= N)%Z -> r <> [] ->
     exists rep, (s <- simulate r N g ;; analyse s N) = Ok rep).
Proof.
  split; [|split; [|split; [|split]]].
  - intros HN. unfold simulate. now rewrite decision_matrix_negative.
  - intros HN. unfold simulate.
    now rewrite (decision_matrix_too_big _ _ _ (fits_beyond_dimension _ _ HN)).
  - intros d Hd ->.
    destruct (decision_matrix_ok _ _ _ _ Hd) as (_ & _ & [Hlen _] & _).
    apply length_zero_iff_nil in Hlen. subst d.
    unfold simulate. rewrite Hd. reflexivity.
  - intros -> Hne.
    destruct (decision_matrix_drawn (length r) 0 g (Z.le_refl 0)
                (fits_no_columns _)) as (d & Hd & Hsh & _).
    destruct (final_row r d _ Hne Hsh) as (fv & b & Hfv & Hlen & _ & Hb & _).
    apply length_zero_iff_nil in Hlen. subst fv.
    unfold simulate. rewrite Hd. cbn [bind].
    unfold analyse, simulation_of; cbn [sim_equity sim_benchmark].
    rewrite Hfv, Hb. reflexivity.
  - intros d Hd HN Hne.
    destruct (decision_matrix_ok _ _ _ _ Hd) as (_ & _ & Hsh & _).
    destruct (final_row r d _ Hne Hsh) as (fv & b & Hfv & Hlen & _ & Hb & _).
    destruct fv as [|v fv]; [simpl in Hlen; lia|].
    unfold simulate. rewrite Hd. cbn [bind].
    unfold analyse, simulation_of; cbn [sim_equity sim_benchmark].
    rewrite Hfv, Hb. cbn [bind Numpy.max Numpy.min]. eauto.
Qed.

Lemma simulation_and_analysis_outcomes_example :
  (s <- simulate example_returns (-3) (fun _ => 0) ;; analyse s (-3))
    = Raise ValueError /\
  (s <- simulate example_returns (2 ^ 63) (fun _ => 0) ;; analyse s (2 ^ 63))
    = Raise ValueError /\
  (s <- simulate [] 5 (fun _ => 0) ;; analyse s 5) = Raise IndexError /\
  (s <- simulate example_returns 0 (fun _ => 0) ;; analyse s 0)
    = Raise ValueError /\
  exists rep,
    (s <- simulate example_returns 2 (fun _ => 0) ;; analyse s 2) = Ok rep.
Proof.
  split; [|split; [|split; [|split]]].
  - destruct (simulation_and_analysis_outcomes example_returns (-3)
                (fun _ => 0)) as (H & _). apply H. lia.
  - destruct (simulation_and_analysis_outcomes example_returns (2 ^ 63)
                (fun _ => 0)) as (_ & H & _). apply H. reflexivity.
  - destruct (simulation_and_analysis_outcomes [] 5 (fun _ => 0))
      as (_ & _ & H & _). apply (H []); reflexivity.
  - destruct (simulation_and_analysis_outcomes example_returns 0 (fun _ => 0))
      as (_ & _ & _ & H & _). apply H; [reflexivity|discriminate].
  - destruct (simulation_and_analysis_outcomes example_returns 2 (fun _ => 0))
      as (_ & _ & _ & _ & H).
    apply (H [[0; 0]; [0; 0]; [0; 0]; [0; 0]]%Z);
      [reflexivity|lia|discriminate].
Defined.

(** ** The printed figures *)

Lemma analyse_ok (s : simulation) (M : Z) (rep : report) :
  analyse s M = Ok rep ->
  exists fv bf best worst m,
    final_values (sim_equity s) = Ok fv /\
    benchmark_final (sim_benchmark s) = Ok bf /\
    fv <> [] /\
    Numpy.max fv = Ok best /\
    Numpy.min fv = Ok worst /\
    Numpy.mean fv = Num m /\
    rep = {| buy_hold_return := percent bf;
             average_return := Num (percent m);
             best_run := percent best;
             worst_run := percent worst;
             beaten := beat_benchmark fv bf;
             probability := prob_success (beat_benchmark fv bf) M |}.
Proof.
  unfold analyse. intros H.
  destruct (final_values (sim_equity s)) as [fv| | |]; try discriminate H.
  destruct (benchmark_final (sim_benchmark s)) as [bf| | |]; try discriminate H.
  cbn [bind] in H.
  destruct fv as [|v fv]; [discriminate H|].
  cbn [bind Numpy.max Numpy.min Numpy.mean] in H. injection H as <-.
  exists (v :: fv), bf. do 3 eexists.
  repeat split; try reflexivity. discriminate.
Qed.












Lemma length_strictly_above bf fv :
  (length (strictly_above bf fv) <= length fv)%nat.
Proof.
  unfold strictly_above. induction fv as [|v fv IH]; simpl; [lia|].
  destruct (Qlt_le_dec bf v); simpl; lia.
Qed.

Lemma simulated_run (r : list Q) (N : Z) (g : Numpy.RandomState)
    (s : simulation) (rep : report) :
  simulate r N g = Ok s -> analyse s N = Ok rep ->
  exists d fv bf,
    s = simulation_of r d /\ shape d (length r) (Z.to_nat N) /\ binary d /\
    r <> [] /\ (1 <= N)%Z /\
    final_values (sim_equity s) = Ok fv /\ length fv = Z.to_nat N /\
    (forall n, nth_error fv n
               = get (equity_curves (simulated_daily_returns r d))
                     (pred (length r)) n) /\
    nth_error (benchmark_curve r) (pred (length r)) = Some bf /\
    beaten rep = beat_benchmark fv bf /\
    probability rep = prob_success (beat_benchmark fv bf) N.
Proof.
  intros Hs Ha.
  destruct (simulate_ok r N g _ Hs) as (HN & d & -> & Hd & Hb).
  destruct (analyse_ok _ _ _ Ha)
    as (fv & bf & best & worst & m & Hfv & Hbf & Hne & _ & _ & _ & ->).
  cbn [sim_equity sim_benchmark simulation_of] in Hfv, Hbf.
  assert (Hr : r <> []).
  { intros ->. destruct Hd as [Hlen _]. apply length_zero_iff_nil in Hlen.
    subst d. discriminate Hfv. }
  destruct (final_row r d _ Hr Hd) as (fv' & b' & Hfv' & Hlen & Hnth & Hb' & Hbn).
  rewrite Hfv in Hfv'. injection Hfv' as <-.
  rewrite Hbf in Hb'. injection Hb' as <-.
  exists d, fv, bf. cbn.
  repeat split; try assumption; try apply Hd.
  destruct fv; [congruence|]. simpl in Hlen. lia.
Qed.

Lemma finite_length s rs : finite s = Ok rs -> length rs = length s.
Proof.
  revert rs; induction s as [|c s IH]; intros rs H.
  - now injection H as <-.
  - destruct c as [q| |]; try discriminate H. cbn [finite] in H.
    destruct (finite s) as [qs| | |]; cbn [bind] in H; try discriminate H.
    injection H as <-. simpl. now rewrite (IH qs eq_refl).
Qed.

Lemma report_bounds (r : list Q) (N : Z) (g : Numpy.RandomState)
    (s : simulation) (rep : report) :
  simulate r N g = Ok s -> analyse s N = Ok rep ->
  (0 <= beaten rep <= N)%Z /\ 0 <= probability rep <= 100.
Proof.
  intros Hs Ha.
  destruct (simulated_run r N g _ _ Hs Ha)
    as (d & fv & bf & _ & _ & _ & _ & HN & _ & Hlen & _ & _ & -> & ->).
  rewrite beat_benchmark_count.
  pose proof (length_strictly_above bf fv) as Hle.
  set (k := length (strictly_above bf fv)) in *.
  assert (Hk : (0 <= Z.of_nat k <= N)%Z) by lia.
  split; [exact Hk|].
  assert (H0 : 0 <= inject_Z (Z.of_nat k)).
  { change 0 with (inject_Z 0). rewrite <- Zle_Qle. lia. }
  assert (H1 : inject_Z (Z.of_nat k) <= inject_Z N).
  { rewrite <- Zle_Qle. lia. }
  assert (HN' : 0 < inject_Z N).
  { change 0 with (inject_Z 0). rewrite <- Zlt_Qlt. lia. }
  unfold prob_success.
  assert (Hq0 : 0 <= inject_Z (Z.of_nat k) / inject_Z N).
  { apply Qle_shift_div_l; [exact HN'|]. lra. }
  assert (Hq1 : inject_Z (Z.of_nat k) / inject_Z N <= 1).
  { apply Qle_shift_div_r; [exact HN'|]. lra. }
  split; lra.
Qed.

(** X8. In a report printed after a simulation with count N, the number
    of runs that beat the benchmark lies between 0 and N and the printed
    probability between 0 and 100. *)
Theorem probability_is_a_percentage (r : list Q) (N : Z)
    (g : Numpy.RandomState) (s : simulation) (rep : report) :
  simulate r N g = Ok s -> analyse s N = Ok rep ->
  (0 <= beaten rep <= N)%Z /\ 0 <= probability rep <= 100.
Proof. apply report_bounds. Qed.

Lemma probability_is_a_percentage_example :
  exists s rep,
    simulate example_returns 3 (fun k => if Nat.even k then 1 # 4 else 3 # 4)
      = Ok s /\
    analyse s 3 = Ok rep /\
    (0 <= beaten rep <= 3)%Z /\ 0 <= probability rep <= 100.
Proof.
  do 2 eexists. split; [reflexivity|]. split; [reflexivity|].
  eapply (probability_is_a_percentage example_returns 3
            (fun k => if Nat.even k then 1 # 4 else 3 # 4));
    reflexivity.
Defined.

(** ** Markets that only rise, markets that only fall *)

Lemma rising_market_cell (r : list Q) (d : list (list Z)) (T N t n : nat) :
  length r = T -> shape d T N -> binary d -> Forall (fun x => 0 <= x) r ->
  (t < T)%nat -> (n < N)%nat ->
  exists e b,
    get (equity_curves (simulated_daily_returns r d)) t n = Some e /\
    nth_error (benchmark_curve r) t = Some b /\
    1 <= e /\ e <= b.
Proof.
  intros Hr Hd Hb Hge Ht Hn.
  apply (column_induction r d n (fun e b => 1 <= e /\ e <= b)); [| | |lia].
  - intros k Hk. apply (get_shape Hd); lia.
  - intros r0 x E Hx. pose proof (Forall_nth_error Hge E) as H0.
    simpl in H0.
    destruct (get_binary Hb Hx) as [-> | ->].
    + change (inject_Z 0) with 0. split; lra.
    + change (inject_Z 1) with 1. split; lra.
  - intros k e b rt x [He Hle] E Hx.
    pose proof (Forall_nth_error Hge E) as H0. simpl in H0.
    destruct (get_binary Hb Hx) as [-> | ->].
    + change (inject_Z 0) with 0. split; nra.
    + change (inject_Z 1) with 1. split; nra.
Qed.

(** X9. When no return is negative, no strategy ever falls below its
    starting value: every cell of the equity curves is at least 1. *)
Theorem rising_market_never_loses (r : list Q) (d : list (list Z))
    (T N t n : nat) :
  length r = T -> shape d T N -> binary d -> Forall (fun x => 0 <= x) r ->
  (t < T)%nat -> (n < N)%nat ->
  exists e,
    get (equity_curves (simulated_daily_returns r d)) t n = Some e /\ 1 <= e.
Proof.
  intros Hr Hd Hb Hge Ht Hn.
  destruct (rising_market_cell r d T N t n Hr Hd Hb Hge Ht Hn)
    as (e & b & He & _ & H1 & _).
  eauto.
Qed.

Lemma rising_market_never_loses_example :
  exists e,
    get (equity_curves (simulated_daily_returns [0; 1 # 10; 1 # 20]
                          [[1; 0]; [1; 1]; [0; 1]]%Z)) 2 0 = Some e /\
    1 <= e.
Proof.
  apply (rising_market_never_loses [0; 1 # 10; 1 # 20]
           [[1; 0]; [1; 1]; [0; 1]]%Z 3 2 2 0).
  - reflexivity.
  - literal.
  - unfold binary; literal.
  - literal.
  - lia.
  - lia.
Defined.

(** X10. When every return is negative or zero (and above -1), buy and
    hold is the worst strategy: on every day the benchmark is not
    negative and at most the equity of any strategy, and no strategy is
    above 1. *)
Theorem falling_market_bounds (r : list Q) (d : list (list Z))
    (T N t n : nat) :
  length r = T -> shape d T N -> binary d ->
  Forall (fun x => -1 < x /\ x <= 0) r ->
  (t < T)%nat -> (n < N)%nat ->
  exists e b,
    get (equity_curves (simulated_daily_returns r d)) t n = Some e /\
    nth_error (benchmark_curve r) t = Some b /\
    0 <= b /\ b <= e /\ e <= 1.
Proof.
  intros Hr Hd Hb Hle Ht Hn.
  apply (column_induction r d n (fun e b => 0 <= b /\ b <= e /\ e <= 1));
    [| | |lia].
  - intros k Hk. apply (get_shape Hd); lia.
  - intros r0 x E Hx. destruct (Forall_nth_error Hle E) as [H1 H0].
    destruct (get_binary Hb Hx) as [-> | ->].
    + change (inject_Z 0) with 0. repeat split; lra.
    + change (inject_Z 1) with 1. repeat split; lra.
  - intros k e b rt x (Hb0 & Hbe & He1) E Hx.
    destruct (Forall_nth_error Hle E) as [H1 H0].
    destruct (get_binary Hb Hx) as [-> | ->].
    + change (inject_Z 0) with 0. repeat split; nra.
    + change (inject_Z 1) with 1. repeat split; nra.
Qed.

Lemma falling_market_bounds_example :
  exists e b,
    get (equity_curves (simulated_daily_returns [0; - (1 # 10); - (1 # 2)]
                          [[1; 0]; [1; 1]; [0; 1]]%Z)) 2 0 = Some e /\
    nth_error (benchmark_curve [0; - (1 # 10); - (1 # 2)]) 2 = Some b /\
    0 <= b /\ b <= e /\ e <= 1.
Proof.
  apply (falling_market_bounds [0; - (1 # 10); - (1 # 2)]
           [[1; 0]; [1; 1]; [0; 1]]%Z 3 2 2 0).
  - reflexivity.
  - literal.
  - unfold binary; literal.
  - literal.
  - lia.
  - lia.
Defined.

Lemma none_strictly_above bf fv :
  (forall v, In v fv -> v <= bf) -> strictly_above bf fv = [].
Proof.
  unfold strictly_above. induction fv as [|v fv IH]; intros H; [reflexivity|].
  simpl. destruct (Qlt_le_dec bf v) as [Hlt|_].
  - exfalso. exact (Qlt_not_le _ _ Hlt (H v (or_introl eq_refl))).
  - apply IH. intros w Hw. apply H. now right.
Qed.

(** X11. When no return is negative, the printed report counts no run as
    beating the benchmark and prints probability 0, whatever was drawn. *)
Theorem rising_market_beats_nobody (r : list Q) (N : Z)
    (g : Numpy.RandomState) (s : simulation) (rep : report) :
  Forall (fun x => 0 <= x) r ->
  simulate r N g = Ok s -> analyse s N = Ok rep ->
  beaten rep = 0%Z /\ probability rep == 0.
Proof.
  intros Hge Hs Ha.
  destruct (simulated_run r N g _ _ Hs Ha)
    as (d & fv & bf & _ & Hd & Hb & Hr & HN & _ & Hlen & Hnth & Hbf & -> & ->).
  assert (HT : (pred (length r) < length r)%nat).
  { destruct r; [congruence|simpl; lia]. }
  assert (Hall : forall v, In v fv -> v <= bf).
  { intros v Hv. apply In_nth_error in Hv. destruct Hv as [n Hn].
    assert (Hn' : (n < Z.to_nat N)%nat).
    { rewrite <- Hlen. apply nth_error_Some. rewrite Hn. discriminate. }
    destruct (rising_market_cell r d (length r) (Z.to_nat N)
                (pred (length r)) n eq_refl Hd Hb Hge HT Hn')
      as (e & b & He & Hbb & _ & Heb).
    rewrite Hnth, He in Hn. injection Hn as <-.
    rewrite Hbf in Hbb. injection Hbb as <-. exact Heb. }
  rewrite beat_benchmark_count, (none_strictly_above bf fv Hall).
  split; [reflexivity|].
  unfold prob_success, Qdiv. simpl length. change (inject_Z (Z.of_nat 0)) with 0.
  ring.
Qed.

Lemma rising_market_beats_nobody_example :
  exists s rep,
    simulate [0; 1 # 10; 1 # 20] 3
      (fun k => if Nat.even k then 1 # 4 else 3 # 4) = Ok s /\
    analyse s 3 = Ok rep /\
    beaten rep = 0%Z /\ probability rep == 0.
Proof.
  do 2 eexists. split; [reflexivity|]. split; [reflexivity|].
  eapply (rising_market_beats_nobody [0; 1 # 10; 1 # 20] 3
            (fun k => if Nat.even k then 1 # 4 else 3 # 4)).
  - literal.
  - reflexivity.
  - reflexivity.
Defined.

(** ** Which column is read *)

Lemma column_In label data v :
  In v (column label data) <-> In (label, v) data.
Proof.
  induction data as [|[l w] data IH]; simpl; [tauto|].
  destruct (String.eqb l label) eqn:E.
  - apply String.eqb_eq in E. subst l. simpl. rewrite IH.
    split; intros [H|H]; auto; left; congruence.
  - apply String.eqb_neq in E. rewrite IH.
    split; [auto|]. intros [H|H]; [congruence|assumption].
Qed.

Lemma has_column_column label data :
  has_column label data = true <-> column label data <> [].
Proof.
  induction data as [|[l w] data IH]; simpl; [split; congruence|].
  destruct (String.eqb l label); simpl; [split; [discriminate|auto]|apply IH].
Qed.

(** X13. The prices are a column of the frame: the one column labelled
    Close when there is exactly one, the first column when there is none.
    Reading them raises IndexError exactly when the frame has no column at
    all, and with several columns labelled Close the script does not get a
    series but a frame of all of them. *)
Theorem prices_selection (data : DataFrame) :
  (prices data = Raise IndexError <-> data = []) /\
  (prices data = SeveralColumns <->
   (2 <= length (column "Close"%string data))%nat) /\
  (forall v, prices data = Ok v ->
     (column "Close"%string data = [v] /\ In ("Close"%string, v) data) \/
     (column "Close"%string data = [] /\
      exists l, nth_error data 0 = Some (l, v))) /\
  prices data <> Raise ValueError /\ prices data <> NonFinite.
Proof.
  unfold prices. destruct (has_column "Close" data) eqn:Hc.
  - pose proof (proj1 (has_column_column _ _) Hc) as Hne.
    destruct (column "Close" data) as [|v [|w cs]] eqn:Ecol; [congruence| |].
    + split; [|split; [|split; [|split]]]; try discriminate.
      * split; [discriminate|]. intros ->. discriminate Hc.
      * split; [discriminate|]. simpl. lia.
      * intros v' H. injection H as <-. left. split; [reflexivity|].
        apply column_In. rewrite Ecol. now left.
    + split; [|split; [|split; [|split]]]; try discriminate.
      * split; [discriminate|]. intros ->. discriminate Hc.
      * split; [simpl; lia|reflexivity].
  - assert (Ecol : column "Close" data = []).
    { destruct (column "Close" data) eqn:E; [reflexivity|].
      assert (has_column "Close" data = true); [|congruence].
      apply has_column_column. rewrite E. discriminate. }
    rewrite Ecol. destruct data as [|[l v] data]; simpl.
    + split; [|split; [|split; [|split]]]; try discriminate.
      * split; auto.
      * split; [discriminate|lia].
    + split; [|split; [|split; [|split]]]; try discriminate.
      * split; discriminate.
      * split; [discriminate|lia].
      * intros w H. injection H as <-. right. eauto.
Qed.

(** ** The paths that are drawn *)

(** X14. The second panel draws the first 100 strategies and no other:
    the drawn array has the rows of the equity curves, cell (t, n) of it
    is the equity cell (t, n) for n below 100, and it has no cell from
    column 100 on; with N columns in, [min 100 N] columns come out. *)
Theorem plotted_paths_are_first_hundred (E : list (list Q)) (T N : nat) :
  shape E T N ->
  shape (plotted_paths E) T (Nat.min 100 N) /\
  forall t n,
    get (plotted_paths E) t n = if (n <? 100)%nat then get E t n else None.
Proof.
  intros [HT HN]. unfold plotted_paths. split; [split|].
  - now rewrite length_map.
  - rewrite Forall_map. eapply Forall_impl; [|exact HN].
    intros row Hrow. cbv beta. now rewrite length_firstn, Hrow.
  - intros t n. unfold get. rewrite nth_error_map.
    destruct (nth_error E t) as [row|]; cbn [option_map].
    + apply nth_error_firstn.
    + destruct (n <? 100)%nat; reflexivity.
Qed.

Lemma plotted_paths_are_first_hundred_example :
  shape (plotted_paths (equity_curves (simulated_daily_returns example_returns
                                         example_decisions))) 4 (Nat.min 100 2) /\
  forall t n,
    get (plotted_paths (equity_curves (simulated_daily_returns example_returns
                                         example_decisions))) t n
    = if (n <? 100)%nat
      then get (equity_curves (simulated_daily_returns example_returns
                                 example_decisions)) t n
      else None.
Proof.
  apply (plotted_paths_are_first_hundred
           (equity_curves (simulated_daily_returns example_returns
                             example_decisions)) 4 2).
  literal.
Defined.

(** ** Padding without gaps *)

Lemma ffill_from_complete seen (qs : list Q) :
  ffill_from seen (map Some qs) = map Some qs.
Proof.
  revert seen; induction qs as [|q qs IH]; intros seen; simpl; [reflexivity|].
  now rewrite IH.
Qed.

Lemma complete_prices (ps : list price) :
  Forall (fun p => p <> None) ps -> exists qs, ps = map Some qs.
Proof.
  induction 1 as [|p ps Hp _ (qs & ->)]; [exists []; reflexivity|].
  destruct p as [q|]; [|congruence]. exists (q :: qs). reflexivity.
Qed.

(** X15. On prices without gaps the two behaviours of [pct_change] give the
    same return series. *)
Theorem fill_method_irrelevant_without_gaps (ps : list price) :
  Forall (fun p => p <> None) ps ->
  market_returns pad ps = market_returns no_fill ps.
Proof.
  intros H. destruct (complete_prices ps H) as [qs ->].
  unfold market_returns, pct_change, filled, ffill.
  now rewrite ffill_from_complete.
Qed.

Lemma fill_method_irrelevant_without_gaps_example :
  market_returns pad [Some 100; Some 110; Some 99]
  = market_returns no_fill [Some 100; Some 110; Some 99].
Proof.
  apply (fill_method_irrelevant_without_gaps [Some 100; Some 110; Some 99]).
  literal.
Defined.


(** ** From the frame to the report *)

(** X16. On a frame with exactly one column labelled Close, holding
    positive prices without gaps, at least one of them, the run gets
    through whenever the decisions are drawn for a count of at least 1:
    the report is printed, with a probability between 0 and 100. *)
Theorem run_on_positive_prices (fm : fill_method) (data : DataFrame) (N : Z)
    (g : Numpy.RandomState) (qs : list Q) (d : list (list Z)) :
  column "Close"%string data = [map Some qs] ->
  qs <> [] -> Forall (fun q => 0 < q) qs ->
  decision_matrix (length qs) N g = Ok d -> (1 <= N)%Z ->
  exists rep,
    run fm data N g = Ok rep /\
    (0 <= beaten rep <= N)%Z /\
    0 <= probability rep <= 100.
Proof.
  intros Hcol Hne Hpos Hd HN.
  assert (Hc : has_column "Close" data = true).
  { apply has_column_column. rewrite Hcol. discriminate. }
  destruct (returns_of_positive_prices fm (map Some qs)) as (rs & Hrs & _).
  { rewrite Forall_map. exact Hpos. }
  assert (Hlen : length rs = length qs).
  { rewrite (finite_length _ _ Hrs).
    now rewrite length_market_returns, length_map. }
  assert (Hrne : rs <> []).
  { intros ->. destruct qs; [congruence|discriminate Hlen]. }
  rewrite <- Hlen in Hd.
  destruct (decision_matrix_ok _ _ _ _ Hd) as (_ & _ & Hsh & _).
  destruct (final_row rs d _ Hrne Hsh) as (fv & b & Hfv & Hfl & _ & Hb & _).
  destruct fv as [|v fv]; [simpl in Hfl; lia|].
  assert (Hsim : simulate rs N g = Ok (simulation_of rs d)).
  { unfold simulate. now rewrite Hd. }
  assert (Han : exists rep, analyse (simulation_of rs d) N = Ok rep).
  { unfold analyse, simulation_of; cbn [sim_equity sim_benchmark].
    rewrite Hfv, Hb. cbn [bind Numpy.max Numpy.min]. eauto. }
  destruct Han as [rep Hrep]. exists rep. split.
  - unfold run, load, prices. rewrite Hc, Hcol. cbn [bind]. rewrite Hrs.
    cbn [bind]. rewrite Hsim. cbn [bind]. exact Hrep.
  - now apply (report_bounds rs N g (simulation_of rs d) rep).
Qed.

Lemma run_on_positive_prices_example :
  exists rep,
    run no_fill [("Open"%string, [Some 99; Some 101; Some 108]);
                 ("Close"%string, [Some 100; Some 110; Some 120])] 2
        (fun k => if Nat.even k then 1 # 4 else 3 # 4) = Ok rep /\
    (0 <= beaten rep <= 2)%Z /\
    0 <= probability rep <= 100.
Proof.
  apply (run_on_positive_prices no_fill
           [("Open"%string, [Some 99; Some 101; Some 108]);
            ("Close"%string, [Some 100; Some 110; Some 120])] 2
           (fun k => if Nat.even k then 1 # 4 else 3 # 4) [100; 110; 120]
           [[0; 1]; [0; 1]; [0; 1]]%Z).
  - reflexivity.
  - discriminate.
  - literal.
  - reflexivity.
  - lia.
Defined.

(** ** A price of zero *)

Lemma finite_Inf s k : nth_error s k = Some Inf -> finite s = NonFinite.
Proof.
  revert k; induction s as [|c s IH]; intros [|k] H; try discriminate H.
  - simpl in H. injection H as ->. reflexivity.
  - simpl in H. destruct c as [q| |]; try reflexivity.
    cbn [finite]. now rewrite (IH k H).
Qed.

(** X18. After a price of zero the change is a division by zero, and
    [fillna(0)] mends only half of it: when the next price is zero too the
    return is 0, when it is not the return is infinite, stays in the
    series and the return series is no longer finite. *)
Theorem return_after_zero_price (fm : fill_method) (ps : list price)
    (t : nat) (c p : Q) :
  nth_error ps (S t) = Some (Some c) -> nth_error ps t = Some (Some p) ->
  p == 0 ->
  (c == 0 -> nth_error (market_returns fm ps) (S t) = Some (Num 0)) /\
  (~ c == 0 ->
   nth_error (market_returns fm ps) (S t) = Some Inf /\
   finite (market_returns fm ps) = NonFinite).
Proof.
  intros Hc Hp Hp0.
  assert (E : nth_error (market_returns fm ps) (S t)
              = Some (fill0 (if Qeq_bool c 0 then NaN else Inf))).
  { rewrite nth_error_market_returns.
    rewrite (pct_change_S fm ps t _ _ (filled_present fm _ _ _ Hc)
               (filled_present fm _ _ _ Hp)).
    simpl. now rewrite (Qeq_eq_bool _ _ Hp0). }
  split.
  - intros Hc0. now rewrite E, (Qeq_eq_bool _ _ Hc0).
  - intros Hc0.
    assert (Ec : Qeq_bool c 0 = false).
    { destruct (Qeq_bool c 0) eqn:B; [|reflexivity].
      apply Qeq_bool_eq in B. contradiction. }
    rewrite Ec in E. split; [exact E|]. exact (finite_Inf _ _ E).
Qed.

Lemma return_after_zero_price_example :
  nth_error (market_returns no_fill [Some 5; Some 0; Some 0; Some 7]) 2
    = Some (Num 0) /\
  nth_error (market_returns no_fill [Some 5; Some 0; Some 0; Some 7]) 3
    = Some Inf /\
  finite (market_returns no_fill [Some 5; Some 0; Some 0; Some 7]) = NonFinite.
Proof.
  split.
  - apply (return_after_zero_price no_fill
             [Some 5; Some 0; Some 0; Some 7] 1 0 0); reflexivity.
  - apply (return_after_zero_price no_fill
             [Some 5; Some 0; Some 0; Some 7] 2 7 0);
      [reflexivity|reflexivity|reflexivity|discriminate].
Defined.
